(** * Holiday Updates Monitor: a shallow embedding of
    [.github/actions/check-holiday-updates/check_holiday_updates.py]

    The class [HolidayUpdatesChecker] scans a directory of holiday files,
    asks git for the age of every file and opens one GitHub issue per
    outdated file.  The embedding keeps the shape of the Python code:

    - Python exceptions are a type [exn]; a call either returns [Ok v] or
      raises ([Raise e]);
    - everything outside the process (the git executable, the file system,
      the wall clock, the GitHub REST API) is an oracle collected in the
      record [World];
    - what the run changes (the number of clock readings taken so far, the
      open issues of the tracker, the number of API calls made) is the
      record [State], threaded through a state-and-exception monad [M];
    - [logger] calls have no influence on any returned value and are left
      out. *)

From Stdlib Require Import ZArith List String Ascii Bool Lia DecimalString.
Import ListNotations.

Local Open Scope string_scope.
Local Open Scope Z_scope.

(* ===================================================================== *)
(** ** Python strings (ASCII) *)
(* ===================================================================== *)

(** A Python string is kept as the bytes of its UTF-8 text.  [str.replace]
    of one ASCII character by another, [str.rfind] of an ASCII character,
    [str.endswith] and [PurePath.stem] work on these bytes as they do on
    the characters.  [title] is [str.title] for a string of ASCII
    characters only ([is_ascii]); for any other string Python consults the
    Unicode tables, which the checker takes from its world
    ([unicode_title]). *)
Module PyStr.

(** All characters of the string are ASCII characters. *)
Fixpoint is_ascii (s : string) : bool :=
  match s with
  | EmptyString => true
  | String c rest => (nat_of_ascii c <? 128)%nat && is_ascii rest
  end.

Definition is_upper (c : ascii) : bool :=
  let n := nat_of_ascii c in (65 <=? n)%nat && (n <=? 90)%nat.

Definition is_lower (c : ascii) : bool :=
  let n := nat_of_ascii c in (97 <=? n)%nat && (n <=? 122)%nat.

Definition is_cased (c : ascii) : bool := is_upper c || is_lower c.

Definition to_upper (c : ascii) : ascii :=
  if is_lower c then ascii_of_nat (nat_of_ascii c - 32) else c.

Definition to_lower (c : ascii) : ascii :=
  if is_upper c then ascii_of_nat (nat_of_ascii c + 32) else c.

(** [str.title()] of an ASCII string: CPython walks the string with a flag
    [previous_is_cased]; a character after a cased one is lowered, any
    other character is title-cased (upper-cased, for ASCII). *)
Fixpoint title_from (previous_is_cased : bool) (s : string) : string :=
  match s with
  | EmptyString => EmptyString
  | String c rest =>
      String (if previous_is_cased then to_lower c else to_upper c)
             (title_from (is_cased c) rest)
  end.

Definition title (s : string) : string := title_from false s.

(** [s.replace(old, new)] for one-character [old] and [new]. *)
Fixpoint replace (old new : ascii) (s : string) : string :=
  match s with
  | EmptyString => EmptyString
  | String c rest =>
      String (if Ascii.eqb c old then new else c) (replace old new rest)
  end.

(** [s.rfind(c)]: the highest index of [c] in [s], or [-1]. *)
Fixpoint rfind_from (c : ascii) (s : string) (i last : Z) : Z :=
  match s with
  | EmptyString => last
  | String d rest => rfind_from c rest (i + 1) (if Ascii.eqb d c then i else last)
  end.

Definition rfind (c : ascii) (s : string) : Z := rfind_from c s 0 (-1).

Definition len (s : string) : Z := Z.of_nat (String.length s).

(** [s.endswith(suffix)]. *)
Definition endswith (suffix s : string) : bool :=
  let n := String.length s in
  let m := String.length suffix in
  (m <=? n)%nat && String.eqb (substring (n - m) m s) suffix.

(** [PurePath.stem] of a file name, as in CPython up to 3.12:
    [i = name.rfind('.')]; [name[:i]] if [0 < i < len(name) - 1], else
    [name].  Later versions give the same stem for names such as
    [aruba.py]. *)
Definition stem (name : string) : string :=
  let i := rfind "."%char name in
  if (0 <? i) && (i <? len name - 1)
  then substring 0 (Z.to_nat i) name
  else name.

End PyStr.

(* ===================================================================== *)
(** ** Exceptions, results and the monad of the checker *)
(* ===================================================================== *)

(** A file inside the scanned directory: [directory / name]. *)
Record FilePath := mkFilePath {
  fp_directory : string;     (* the directory, relative to the repository root *)
  fp_name : string           (* [Path.name], the last component *)
}.

(** [str(file_path.relative_to(self.repo_path))] for a file the glob
    yields below [self.repo_path / directory].  pathlib keeps a path
    without empty components and without components [.]; for a directory
    written that way ([normal_directory] below) the text is the directory,
    a slash and the name.  For any other spelling of the directory (a slash
    at its end, a doubled slash, [./]) pathlib gives the normal spelling,
    and for an absolute directory outside the repository [relative_to]
    raises [ValueError]: those are outside of what this function
    describes. *)
Definition relative_path (f : FilePath) : string :=
  (fp_directory f ++ "/" ++ fp_name f)%string.

(** The four [RuntimeError]s the checker raises, told apart by the text of
    their message. *)
Inductive runtime_reason :=
| GitNotAccessible                      (* "Git repository not accessible: ..." *)
| NoCommitHistory (path : string)       (* "No git commit history found for file: ..." *)
| GitCommandFailed (path : string)      (* "Failed to get git commit date for ..." *)
| FileAccessFailed (path : string).     (* "Failed to access file ..." *)

Inductive exn :=
| RuntimeError (why : runtime_reason)
| CalledProcessError                    (* subprocess, [check=True], exit status <> 0 *)
| OSError                               (* the executable could not be started, ... *)
| ValueError                            (* [int()] of a string that is no number;
                                           a year outside 1..9999 *)
| OverflowError                         (* a timestamp outside the range of the platform *)
| GithubException                       (* PyGithub's error class *)
| OtherException.                       (* any other subclass of [Exception] *)

Inductive pyresult (A : Type) :=
| Ok (a : A)
| Raise (e : exn).
Arguments Ok {A} a.
Arguments Raise {A} e.

(** One issue of the tracker. *)
Record Issue := mkIssue {
  issue_number : Z;
  issue_title : string;
  issue_body : string;
  issue_labels : list string
}.

(** What a run changes. *)
Record State := mkState {
  clock_reads : nat;          (* how often [datetime.now()] was called *)
  open_issues : list Issue;   (* the tracker's open issues, newest first *)
  next_number : Z;            (* the number the next created issue gets *)
  search_calls : nat;         (* calls of [repo.get_issues] so far *)
  create_calls : nat          (* calls of [repo.create_issue] so far *)
}.

(** One more reading of the clock. *)
Definition tick (s : State) : State :=
  mkState (S (clock_reads s)) (open_issues s) (next_number s)
          (search_calls s) (create_calls s).

(** One more listing of the open issues. *)
Definition searched (s : State) : State :=
  mkState (clock_reads s) (open_issues s) (next_number s)
          (S (search_calls s)) (create_calls s).

(** One more call of [create_issue] that raised. *)
Definition create_failed (s : State) : State :=
  mkState (clock_reads s) (open_issues s) (next_number s)
          (search_calls s) (S (create_calls s)).

(** One more call of [create_issue] that opened [issue]. *)
Definition issue_opened (issue : Issue) (s : State) : State :=
  mkState (clock_reads s) (issue :: open_issues s) (next_number s + 1)
          (search_calls s) (S (create_calls s)).

Definition M (A : Type) : Type := State -> pyresult A * State.

Definition ret {A} (a : A) : M A := fun s => (Ok a, s).

Definition raise {A} (e : exn) : M A := fun s => (Raise e, s).

Definition bind {A B} (m : M A) (k : A -> M B) : M B :=
  fun s =>
    match m s with
    | (Ok a, s') => k a s'
    | (Raise e, s') => (Raise e, s')
    end.

(** A call that touches no state. *)
Definition lift {A} (r : pyresult A) : M A := fun s => (r, s).

Declare Scope py_scope.
Delimit Scope py_scope with py.
Notation "x <- m ;; k" := (bind m (fun x => k))
  (at level 61, m at next level, right associativity) : py_scope.
Local Open Scope py_scope.

Definition is_CalledProcessError (e : exn) : bool :=
  match e with CalledProcessError => true | _ => false end.

Definition is_OSError (e : exn) : bool :=
  match e with OSError => true | _ => false end.

Definition is_GithubException (e : exn) : bool :=
  match e with GithubException => true | _ => false end.

(** [except Exception]: every exception of the model. *)
Definition is_Exception (e : exn) : bool := true.

(* ===================================================================== *)
(** ** The world outside the process *)
(* ===================================================================== *)

(** [result.stdout.strip()] of a [git log -1 --format=%ct] call.  The
    format prints the committer date as a decimal Unix timestamp, so the
    stripped output is empty or a decimal number; [NotDecimal] stands for
    any other text, on which [int()] raises [ValueError]. *)
Inductive cmd_output :=
| Blank
| Decimal (n : Z)
| NotDecimal.

(** What [subprocess.run] meets: the process ran and exited, or it could
    not be started at all ([OSError]). *)
Inductive proc_outcome :=
| Exited (returncode : Z) (stdout : cmd_output)
| NotStarted.

(** The three [git log] command lines of [get_file_age_days]. *)
Inductive log_query :=
| LogFollow     (* git log -1 --format=%ct --follow -- <path> *)
| LogPlain      (* git log -1 --format=%ct -- <path> *)
| LogAll.       (* git log -1 --format=%ct --all -- <path> *)

(** [issue_body_template.md] next to the script. *)
Inductive template_file :=
| TemplateNotFound                 (* [open] raises [FileNotFoundError] *)
| TemplateUnreadable               (* [open]/[read] raises another [OSError] *)
| TemplateText (text : string).

(** The keyword arguments of [template.format(...)]. *)
Record TemplateArgs := mkTemplateArgs {
  ta_path : string;
  ta_formatted_date : string;
  ta_age_days : Z;
  ta_threshold_days : Z;
  ta_directory_type : string;
  ta_name : string;
  ta_overdue_days : Z
}.

(** [datetime.fromtimestamp(ts)]: the naive datetime of the instant [ts]
    in the time zone of the host, or one of the three errors of the
    conversion.  A naive datetime is kept as the number of seconds (for the
    clock: microseconds) between 1970-01-01 00:00:00 and it, on the
    calendar; on a host that runs on UTC, [fromtimestamp ts] is
    [LocalTime ts]. *)
Inductive local_time :=
| LocalTime (naive : Z)
| TimeOverflow            (* OverflowError: out of the range of the platform's time_t *)
| TimeYearOutOfRange      (* ValueError: year outside 1..9999 *)
| TimeOSError.            (* OSError: localtime() failed *)

Record World := mkWorld {
  (* git, run with [cwd=self.repo_path]; the repository does not change
     while the checker runs *)
  git_status : proc_outcome;                       (* git status --porcelain *)
  git_log : log_query -> string -> proc_outcome;   (* git log ... -- <path> *)
  (* the [n]-th reading of [datetime.now()]: a naive datetime in the time
     zone of the host, in microseconds *)
  clock : nat -> Z;
  (* the file system below the repository root *)
  dir_exists : string -> bool;
  listdir : string -> list string;                 (* entry names, in the order the OS lists them *)
  template : template_file;
  (* library functions kept abstract *)
  strftime_date : Z -> string;                     (* [strftime("%B %d, %Y")] *)
  str_format : string -> TemplateArgs -> pyresult string;   (* [str.format] *)
  (* the GitHub API: the [n]-th listing of the open issues raises [e] after
     it has yielded [k] issues ([Some (k, e)]), the [n]-th creation raises
     [e] ([Some e]) *)
  search_fault : nat -> option (nat * exn);
  create_fault : nat -> option exn;
  (* the interpreter and its platform *)
  fromtimestamp : Z -> local_time;                 (* [datetime.fromtimestamp] *)
  round_far : Z -> Z;                              (* see [round_days] *)
  unicode_title : string -> string                 (* [str.title] of a string that is not ASCII *)
}.

(** The attributes of a [HolidayUpdatesChecker] the methods read.  Paths
    are kept relative to [repo_path]. *)
Record Checker := mkChecker {
  files_path : string;
  threshold_days : Z;
  dry_run : bool;
  repo : bool          (* [self.repo] is not [None] *)
}.

(** The dictionary [file_info] built by [scan_directory]. *)
Record FileInfo := mkFileInfo {
  fi_path : string;              (* "path" *)
  fi_name : string;              (* "name" *)
  fi_age_days : Z;               (* "age_days" *)
  fi_last_modified : Z;          (* "last_modified": the naive local datetime of the
                                    commit, in seconds; the code stores its ISO text
                                    and parses it back *)
  fi_threshold_days : Z;         (* "threshold_days" *)
  fi_directory_type : string     (* "directory_type" *)
}.

(** The dictionary [stats] of [process_outdated_files]. *)
Record Stats := mkStats {
  created : nat;
  skipped : nat;
  errors : nat
}.

(** The dictionary returned by [run]. *)
Record RunResult := mkRunResult {
  outdated_files : list FileInfo;
  stats : Stats;
  timestamp : Z
}.

(** The quotient [x / d] ([d > 0]) rounded to the nearest integer, a tie
    to the even one; the quotient is taken exactly. *)
Definition round_half_even (x d : Z) : Z :=
  let q := x / d in
  let r := x mod d in
  if 2 * r <? d then q
  else if d <? 2 * r then q + 1
  else if Z.even q then q else q + 1.

(** [round(age.total_seconds() / 86400)] for a [timedelta] of [us]
    microseconds.  Python computes [us / 10**6] and the division by 86400
    in binary64 and rounds the result half to even.  Up to 4 * 10^15
    microseconds (46296 days) the two roundings of binary64 move the
    quotient by less than the microsecond that separates it from the next
    half day, and a half day is hit exactly: the result is the exact
    quotient rounded half to even.  Beyond, binary64 decides; the result is
    read from the world. *)
Definition round_days (w : World) (us : Z) : Z :=
  if Z.abs us <=? 4000000000000000
  then round_half_even us (86400 * 1000000)
  else round_far w us.

(** [s.title()]. *)
Definition py_title (w : World) (s : string) : string :=
  if PyStr.is_ascii s then PyStr.title s else unicode_title w s.

(** [datetime.fromtimestamp(ts)] with its exceptions. *)
Definition convert_timestamp (w : World) (ts : Z) : pyresult Z :=
  match fromtimestamp w ts with
  | LocalTime naive => Ok naive
  | TimeOverflow => Raise OverflowError
  | TimeYearOutOfRange => Raise ValueError
  | TimeOSError => Raise OSError
  end.

(** [try: m  except C1: h1  except C2: h2 ...]: a clause is a test
    [caught] (is the exception an instance of the class?) with its handler;
    the first clause whose test succeeds handles the exception. *)
Fixpoint dispatch {A} (clauses : list ((exn -> bool) * (exn -> M A))) (e : exn) : M A :=
  match clauses with
  | [] => raise e
  | (caught, handler) :: rest => if caught e then handler e else dispatch rest e
  end.

Definition try_excepts {A} (m : M A) (clauses : list ((exn -> bool) * (exn -> M A))) : M A :=
  fun s =>
    match m s with
    | (Ok a, s') => (Ok a, s')
    | (Raise e, s') => dispatch clauses e s'
    end.

(** [bool(result.stdout.strip())]. *)
Definition nonblank (out : cmd_output) : bool :=
  match out with Blank => false | _ => true end.

(** [int(result.stdout.strip())]. *)
Definition py_int (out : cmd_output) : pyresult Z :=
  match out with
  | Decimal n => Ok n
  | _ => Raise ValueError
  end.

(** [directory.name]: the last component of a directory path written as
    pathlib keeps it ([normal_directory] below), the text after its last
    slash. *)
Definition path_name (p : string) : string :=
  let i := PyStr.rfind "/"%char p in
  if i <? 0 then p
  else substring (Z.to_nat (i + 1)) (String.length p - Z.to_nat (i + 1)) p.

(* ===================================================================== *)
(** ** The methods of [HolidayUpdatesChecker] *)
(* ===================================================================== *)

Section HolidayUpdatesChecker.

Variable w : World.

(** [datetime.now()]. *)
Definition now : M Z :=
  fun s => (Ok (clock w (clock_reads s)), tick s).

(** [subprocess.run(["git", "status", "--porcelain"], ...)] followed by the
    test of [returncode]. *)
Definition check_git_status : pyresult unit :=
  match git_status w with
  | Exited rc _ => if rc =? 0 then Ok tt else Raise (RuntimeError GitNotAccessible)
  | NotStarted => Raise OSError
  end.

(** [subprocess.run(cmd, ..., check=True)] for a [git log] command. *)
Definition run_git_log (q : log_query) (path : string) : pyresult cmd_output :=
  match git_log w q path with
  | Exited rc out => if rc =? 0 then Ok out else Raise CalledProcessError
  | NotStarted => Raise OSError
  end.

Definition git_commands : list log_query := [LogFollow; LogPlain; LogAll].

(** The loop [for cmd in git_commands]; [result] is the variable of that
    name: the last command that exited with status 0. *)
Fixpoint try_git_commands (path : string) (cmds : list log_query)
    (result : option cmd_output) : pyresult (option cmd_output) :=
  match cmds with
  | [] => Ok result
  | cmd :: rest =>
      match run_git_log cmd path with
      | Ok out =>
          if nonblank out then Ok (Some out)                 (* break *)
          else try_git_commands path rest (Some out)
      | Raise CalledProcessError => try_git_commands path rest result   (* continue *)
      | Raise e => Raise e
      end
  end.

(** What [get_file_age_days] does before it reads the clock: the commit
    time of the file, in seconds. *)
Definition last_commit_timestamp (path : string) : pyresult Z :=
  match check_git_status with
  | Raise e => Raise e
  | Ok _ =>
      match try_git_commands path git_commands None with
      | Raise e => Raise e
      | Ok None => Raise (RuntimeError (NoCommitHistory path))
      | Ok (Some out) =>
          if nonblank out then py_int out
          else Raise (RuntimeError (NoCommitHistory path))
      end
  end.

(** The same, followed by the conversion of the commit time to a naive
    local datetime. *)
Definition last_commit_date (path : string) : pyresult Z :=
  match last_commit_timestamp path with
  | Raise e => Raise e
  | Ok ts => convert_timestamp w ts
  end.

(** [get_file_age_days]: the age of the file's last commit in days. *)
Definition get_file_age_days (file_path : FilePath) : M Z :=
  let path := relative_path file_path in
  try_excepts
    (last_commit_date <- lift (last_commit_date path) ;;
     current_time <- now ;;
     (* age = current_time - last_commit_date;
        round(age.total_seconds() / 86400) *)
     ret (round_days w (current_time - last_commit_date * 1000000)))
    [ (is_CalledProcessError, fun _ => raise (RuntimeError (GitCommandFailed path)));
      (is_OSError, fun _ => raise (RuntimeError (FileAccessFailed path))) ].

(** [get_last_commit_date]: one plain [git log] query. *)
Definition get_last_commit_date (file_path : FilePath) : M Z :=
  let path := relative_path file_path in
  try_excepts
    (out <- lift (run_git_log LogPlain path) ;;
     if nonblank out then
       last_commit_timestamp <- lift (py_int out) ;;
       lift (convert_timestamp w last_commit_timestamp)
     else raise (RuntimeError (NoCommitHistory path)))
    [ (is_CalledProcessError, fun _ => raise (RuntimeError (GitCommandFailed path)));
      (is_OSError, fun _ => raise (RuntimeError (FileAccessFailed path))) ].

(** [extract_name_from_path]: [file_path.stem.replace("_", " ").title()]. *)
Definition extract_name_from_path (file_path : FilePath) : string :=
  py_title w (PyStr.replace "_"%char " "%char (PyStr.stem (fp_name file_path))).

(** [list(directory.glob("*.py"))]: the entries whose name ends in [.py],
    in the order of the listing. *)
Definition glob_py (directory : string) : list FilePath :=
  map (mkFilePath directory) (filter (PyStr.endswith ".py") (listdir w directory)).

(** [[f for f in all_files if f.name != "__init__.py"]]. *)
Definition python_files (directory : string) : list FilePath :=
  filter (fun f => negb (String.eqb (fp_name f) "__init__.py")) (glob_py directory).

(** The body of [for file_path in python_files] in [scan_directory]. *)
Fixpoint scan_loop (directory : string) (threshold : Z) (files : list FilePath)
    (outdated : list FileInfo) : M (list FileInfo) :=
  match files with
  | [] => ret outdated
  | file_path :: rest =>
      age_days <- get_file_age_days file_path ;;
      if age_days >? threshold then
        last_modified <- get_last_commit_date file_path ;;
        let file_info :=
          mkFileInfo (relative_path file_path) (extract_name_from_path file_path)
                     age_days last_modified threshold (path_name directory) in
        scan_loop directory threshold rest (outdated ++ [file_info])
      else
        scan_loop directory threshold rest outdated
  end.

(** [scan_directory]. *)
Definition scan_directory (directory : string) (threshold : Z) : M (list FileInfo) :=
  if negb (dir_exists w directory) then ret []
  else scan_loop directory threshold (python_files directory) [].

Variable self : Checker.

(** [check_freshness]: [scan_directory(self.repo_path / self.files_path,
    self.threshold_days)]. *)
Definition check_freshness : M (list FileInfo) :=
  scan_directory (files_path self) (threshold_days self).

(** [create_issue_title]. *)
Definition create_issue_title (file_info : FileInfo) : string :=
  ("[Holiday Updates] Update required: " ++ fi_name file_info)%string.

(** [create_issue_body]. *)
Definition create_issue_body (file_info : FileInfo) : pyresult string :=
  let formatted_date := strftime_date w (fi_last_modified file_info) in
  match template w with
  | TemplateNotFound =>
      Ok ("File " ++ fi_path file_info ++ " needs updating (last modified: "
          ++ formatted_date ++ ")")%string
  | TemplateUnreadable => Raise OSError
  | TemplateText text =>
      str_format w text
        (mkTemplateArgs (fi_path file_info) formatted_date
           (fi_age_days file_info) (fi_threshold_days file_info)
           (py_title w (fi_directory_type file_info)) (fi_name file_info)
           (fi_age_days file_info - fi_threshold_days file_info))
  end.

(** [self.repo.get_issues(state="open")]: the issues the iteration yields
    and the exception, if any, that ends it. *)
Definition get_issues : M (list Issue * option exn) :=
  fun s =>
    match search_fault w (search_calls s) with
    | None => (Ok (open_issues s, None), searched s)
    | Some (k, e) => (Ok (firstn k (open_issues s), Some e), searched s)
    end.

(** [for issue in issues: if issue.title == title: return issue]. *)
Fixpoint find_title (title : string) (issues : list Issue) (fault : option exn)
    : pyresult (option Issue) :=
  match issues with
  | [] => match fault with Some e => Raise e | None => Ok None end
  | issue :: rest =>
      if String.eqb (issue_title issue) title then Ok (Some issue)
      else find_title title rest fault
  end.

(** [find_existing_issue]. *)
Definition find_existing_issue (file_info : FileInfo) : M (option Issue) :=
  if negb (repo self) then ret None
  else
    try_excepts
      (let title := create_issue_title file_info in
       issues <- get_issues ;;
       lift (find_title title (fst issues) (snd issues)))
      [ (is_GithubException, fun _ => ret None) ].

(** [self.repo.create_issue(title=..., body=..., labels=...)]. *)
Definition repo_create_issue (title body : string) (labels : list string) : M Issue :=
  fun s =>
    match create_fault w (create_calls s) with
    | Some e => (Raise e, create_failed s)
    | None =>
        let issue := mkIssue (next_number s) title body labels in
        (Ok issue, issue_opened issue s)
    end.

(** [create_github_issue]. *)
Definition create_github_issue (file_info : FileInfo) : M bool :=
  if dry_run self then ret true
  else if negb (repo self) then ret false
  else
    existing_issue <- find_existing_issue file_info ;;
    match existing_issue with
    | Some _ => ret true
    | None =>
        try_excepts
          (let title := create_issue_title file_info in
           body <- lift (create_issue_body file_info) ;;
           let labels := ["holiday-updates"; "maintenance"; "data-update"] in
           _ <- repo_create_issue title body labels ;;
           ret true)
          [ (is_GithubException, fun _ => ret false) ]
    end.

Definition count_created (st : Stats) : Stats :=
  mkStats (S (created st)) (skipped st) (errors st).

Definition count_error (st : Stats) : Stats :=
  mkStats (created st) (skipped st) (S (errors st)).

(** The loop [for file_info in outdated_files] of
    [process_outdated_files]. *)
Fixpoint process_loop (files : list FileInfo) (st : Stats) : M Stats :=
  match files with
  | [] => ret st
  | file_info :: rest =>
      st' <- try_excepts
               (ok <- create_github_issue file_info ;;
                if ok : bool then ret (count_created st) else ret (count_error st))
               [ (is_Exception, fun _ => ret (count_error st)) ] ;;
      process_loop rest st'
  end.

(** [process_outdated_files]. *)
Definition process_outdated_files (files : list FileInfo) : M Stats :=
  process_loop files (mkStats 0 0 0).

(** [run]. *)
Definition run : M RunResult :=
  outdated <- check_freshness ;;
  st <- process_outdated_files outdated ;;
  ts <- now ;;
  ret (mkRunResult outdated st ts).

End HolidayUpdatesChecker.

(* ===================================================================== *)
(** ** Notions used to state the properties *)
(* ===================================================================== *)

(** The state after [n] more readings of the clock. *)
Definition ticks (n : nat) (s : State) : State :=
  mkState (n + clock_reads s) (open_issues s) (next_number s)
          (search_calls s) (create_calls s).

(** [l1] is [l2] with some elements removed, the others in their order. *)
Inductive subseq {A : Type} : list A -> list A -> Prop :=
| subseq_nil : subseq [] []
| subseq_skip x l1 l2 : subseq l1 l2 -> subseq l1 (x :: l2)
| subseq_keep x l1 l2 : subseq l1 l2 -> subseq (x :: l1) (x :: l2).

(** A list of paths in lexicographic order. *)
Fixpoint lex_sorted (paths : list string) : bool :=
  match paths with
  | [] => true
  | p :: rest =>
      match rest with
      | [] => true
      | q :: _ => String.leb p q && lex_sorted rest
      end
  end.

(** A query yields a record: git exits with status 0 and prints something. *)
Definition query_yield (w : World) (path : string) (q : log_query) : option cmd_output :=
  match git_log w q path with
  | Exited rc out => if (rc =? 0) && nonblank out then Some out else None
  | NotStarted => None
  end.

(** The first query of a preference order that yields a record. *)
Fixpoint first_yield (w : World) (path : string) (order : list log_query)
    : option cmd_output :=
  match order with
  | [] => None
  | q :: rest =>
      match query_yield w path q with
      | Some out => Some out
      | None => first_yield w path rest
      end
  end.

(** Two worlds that answer alike wherever a scan of [directory] looks:
    the same answers of git, the same clock, the same listing, and the same
    interpreter on the same platform. *)
Definition same_scan_view (w1 w2 : World) (directory : string) : Prop :=
  git_status w1 = git_status w2 /\
  (forall q path, git_log w1 q path = git_log w2 q path) /\
  (forall n, clock w1 n = clock w2 n) /\
  dir_exists w1 directory = dir_exists w2 directory /\
  listdir w1 directory = listdir w2 directory /\
  (forall ts, fromtimestamp w1 ts = fromtimestamp w2 ts) /\
  (forall us, round_far w1 us = round_far w2 us) /\
  (forall s, unicode_title w1 s = unicode_title w2 s).

(** The exceptions of a scan: [RuntimeError], [ValueError] and
    [OverflowError]. *)
Definition scan_error (e : exn) : Prop :=
  (exists why : runtime_reason, e = RuntimeError why) \/ e = ValueError \/
  e = OverflowError.

(** The labels [create_github_issue] gives to every issue. *)
Definition fixed_labels : list string := ["holiday-updates"; "maintenance"; "data-update"].

(** The titles of the open issues. *)
Definition open_titles (s : State) : list string := map issue_title (open_issues s).

(** The query was run, and it ended without a record: git exited with
    another status than 0, or printed nothing. *)
Definition query_silent (w : World) (path : string) (q : log_query) : bool :=
  match git_log w q path with
  | Exited rc out => negb ((rc =? 0) && nonblank out)
  | NotStarted => false
  end.

(** What the resolver makes of the record [out] of a query, in the state
    [s]: the number is read, converted to a local datetime and subtracted
    from the next reading of the clock. *)
Definition age_from_record (w : World) (path : string) (out : cmd_output) (s : State)
    : pyresult Z * State :=
  match py_int out with
  | Raise e => (Raise e, s)
  | Ok ts =>
      match fromtimestamp w ts with
      | LocalTime date =>
          (Ok (round_days w (clock w (clock_reads s) - date * 1000000)), tick s)
      | TimeOverflow => (Raise OverflowError, s)
      | TimeYearOutOfRange => (Raise ValueError, s)
      | TimeOSError => (Raise (RuntimeError (FileAccessFailed path)), s)
      end
  end.

(** "Underscores replaced by spaces": [t] is [s] with a space wherever [s]
    has an underscore. *)
Definition underscores_to_spaces (s t : string) : Prop :=
  String.length t = String.length s /\
  forall (i : nat) (c : ascii),
    get i s = Some c ->
    get i t = Some (if Ascii.eqb c "_" then " "%char else c).

(** [d] is the capital form of the letter [c]; [d] is its small form. *)
Definition capital_of (c d : ascii) : Prop :=
  (65 <= nat_of_ascii d <= 90)%nat /\
  (d = c \/ nat_of_ascii c = (nat_of_ascii d + 32)%nat).

Definition small_of (c d : ascii) : Prop :=
  (97 <= nat_of_ascii d <= 122)%nat /\
  (d = c \/ nat_of_ascii d = (nat_of_ascii c + 32)%nat).

(** An ASCII letter. *)
Definition is_letter (c : ascii) : bool :=
  let n := nat_of_ascii c in
  ((65 <=? n) && (n <=? 90) || (97 <=? n) && (n <=? 122))%nat.

(** The character before position [i] of [s] is a letter. *)
Definition after_letter (s : string) (i : nat) : bool :=
  match i with
  | O => false
  | S j => match get j s with Some p => is_letter p | None => false end
  end.

(** "Title-cased": [t] is [s] with every letter that begins a word (that
    does not follow a letter) as a capital, every other letter small, and
    every other character kept. *)
Definition title_cased (s t : string) : Prop :=
  String.length t = String.length s /\
  forall (i : nat) (c : ascii),
    get i s = Some c ->
    exists d : ascii,
      get i t = Some d /\
      (is_letter c = false -> d = c) /\
      (is_letter c = true -> after_letter s i = false -> capital_of c d) /\
      (is_letter c = true -> after_letter s i = true -> small_of c d).

(** The human-readable name of a file of that stem, in the words of the
    specification. *)
Definition shown_name_of (stem shown : string) : Prop :=
  exists spaced : string,
    underscores_to_spaces stem spaced /\ title_cased spaced shown.

(** The components of a path: the texts between the slashes. *)
Fixpoint components_from (s current : string) : list string :=
  match s with
  | EmptyString => [current]
  | String c rest =>
      if Ascii.eqb c "/" then current :: components_from rest EmptyString
      else components_from rest (current ++ String c EmptyString)
  end.

(** A directory path below the repository root, written as pathlib keeps
    it: relative, with no empty component and no component [.] (so without
    a slash at the start or the end, and without a doubled slash).  For
    such a directory, [relative_path] is
    [str(file_path.relative_to(self.repo_path))] and [path_name] is
    [directory.name]. *)
Definition normal_directory (directory : string) : bool :=
  forallb (fun component => negb (String.eqb component "")
                            && negb (String.eqb component "."))
          (components_from directory EmptyString).

(** The title of an issue is [title]. *)
Definition has_title (title : string) (issue : Issue) : bool :=
  String.eqb (issue_title issue) title.

(* ===================================================================== *)
(** ** Concrete worlds *)
(* ===================================================================== *)

Module Examples.

Definition day : Z := 86400.

(** The instant of the run, in seconds since the epoch. *)
Definition today : Z := 1700000000.

(** A world with a working git and a working tracker, on a host that runs
    on UTC: the directory [holidays/countries] lists [entries], [log]
    answers the [git log] queries, the clock stands at [today]. *)
Definition world_of (entries : list string) (log : log_query -> string -> proc_outcome)
    (search : nat -> option (nat * exn)) (create : nat -> option exn) : World :=
  mkWorld (Exited 0 Blank) log
    (fun _ => today * 1000000)
    (fun d => String.eqb d "holidays/countries")
    (fun _ => entries)
    TemplateNotFound
    (fun _ => "January 01, 2024"%string)
    (fun text _ => Ok text)
    search create
    LocalTime
    (fun us => round_half_even us (86400 * 1000000))
    (fun s => s).

(** Every query finds the commit: [aruba.py] 200 days ago, [zambia.py] 10
    days ago, [belize.py] exactly 180 days ago, [chile.py] 365 days ago. *)
Definition history (q : log_query) (path : string) : proc_outcome :=
  if String.eqb path "holidays/countries/aruba.py" then Exited 0 (Decimal (today - 200 * day))
  else if String.eqb path "holidays/countries/zambia.py" then Exited 0 (Decimal (today - 10 * day))
  else if String.eqb path "holidays/countries/belize.py" then Exited 0 (Decimal (today - 180 * day))
  else if String.eqb path "holidays/countries/chile.py" then Exited 0 (Decimal (today - 365 * day))
  else Exited 0 Blank.

Definition no_fault {A : Type} (n : nat) : option A := None.

(** The scenario of the specification: [aruba.py] and [zambia.py]. *)
Definition aruba_world : World :=
  world_of ["aruba.py"; "__init__.py"; "zambia.py"; "belize.py"; "README.md"]
           history no_fault no_fault.

(** Two directories with the same files, listed by the OS in two orders. *)
Definition listed_za : World :=
  world_of ["zambia.py"; "chile.py"; "aruba.py"] history no_fault no_fault.

Definition listed_az : World :=
  world_of ["aruba.py"; "chile.py"; "zambia.py"] history no_fault no_fault.

(** [south_africa.py] was never committed. *)
Definition untracked_world : World :=
  world_of ["aruba.py"; "south_africa.py"] history no_fault no_fault.

(** The last commit of [aruba.py] is on another branch only: the queries
    with [--follow] and without it print nothing, the one with [--all]
    finds it. *)
Definition other_branch_log (q : log_query) (path : string) : proc_outcome :=
  match q with
  | LogAll => history q path
  | _ => Exited 0 Blank
  end.

Definition other_branch_world : World :=
  world_of ["aruba.py"] other_branch_log no_fault no_fault.


(** The second call of [create_issue] raises [GithubException]. *)
Definition create_down_world : World :=
  world_of ["aruba.py"; "chile.py"] history no_fault
           (fun n => if Nat.eqb n 1 then Some GithubException else None).

(** The tracker is down: the listing of the open issues and [create_issue]
    raise [GithubException]. *)
Definition tracker_down_world : World :=
  world_of ["aruba.py"] history
           (fun _ => Some (0%nat, GithubException))
           (fun _ => Some GithubException).

Definition checker : Checker := mkChecker "holidays/countries" 180 false true.

Definition dry_checker : Checker := mkChecker "holidays/countries" 180 true true.

(** Nothing read yet, an empty tracker. *)
Definition start : State := mkState 0 [] 1 0 0.

Definition aruba_issue : Issue :=
  mkIssue 7 "[Holiday Updates] Update required: Aruba" "File ..." ["holiday-updates"].

(** The tracker already has the issue of [aruba.py] open. *)
Definition start_with_aruba : State := mkState 0 [aruba_issue] 8 0 0.

Definition aruba_file : FilePath := mkFilePath "holidays/countries" "aruba.py".

Definition record_of (name shown : string) (age : Z) : FileInfo :=
  mkFileInfo ("holidays/countries/" ++ name) shown age (today - age * day) 180 "countries".

Definition aruba_record : FileInfo := record_of "aruba.py" "Aruba" 200.
Definition chile_record : FileInfo := record_of "chile.py" "Chile" 365.
Definition zambia_record : FileInfo := record_of "zambia.py" "Zambia" 190.

End Examples.

(* ===================================================================== *)
(** ** The entry point: [__init__], [write_github_output] and [main] *)
(* ===================================================================== *)

(** [s.lower()], on ASCII. *)
Fixpoint py_lower (s : string) : string :=
  match s with
  | EmptyString => EmptyString
  | String c rest => String (PyStr.to_lower c) (py_lower rest)
  end.

(** [str(n)] of a length or a counter. *)
Definition py_str (n : nat) : string := NilEmpty.string_of_uint (Nat.to_uint n).

(** The text of an environment variable that is handed to [int()]: a
    decimal literal, or any other text, on which [int()] raises
    [ValueError]. *)
Inductive int_text :=
| IntLiteral (n : Z)
| NotAnInt.

Definition int_of_text (t : int_text) : pyresult Z :=
  match t with
  | IntLiteral n => Ok n
  | NotAnInt => Raise ValueError
  end.

(** What [main] and [__init__] meet beyond the [World] of the checker: the
    environment variables and the outcome of the calls made before and
    after [run]. *)
Record Host := mkHost {
  env_files_path : option string;           (* INPUT_FILES_PATH *)
  env_threshold_days : option int_text;     (* INPUT_THRESHOLD_DAYS *)
  env_input_github_token : option string;   (* INPUT_GITHUB_TOKEN *)
  env_github_token : option string;         (* GITHUB_TOKEN *)
  env_dry_run : option string;              (* INPUT_DRY_RUN *)
  env_github_output : option string;        (* GITHUB_OUTPUT *)
  repo_path_exists : bool;                  (* os.path.exists("/github/workspace") *)
  repo_path_listing : option exn;           (* os.listdir(repo_path) raises *)
  pygithub_available : bool;                (* [from github import ...] succeeded *)
  get_repo_fault : option exn;              (* Auth.Token / Github / get_repo raises *)
  output_fault : option exn                 (* opening or writing $GITHUB_OUTPUT raises *)
}.

(** [os.getenv(name, default)]. *)
Definition getenv {A : Type} (value : option A) (default : A) : A :=
  match value with
  | Some v => v
  | None => default
  end.

(** The truth value of an optional string: [None] and [""] are false. *)
Definition truthy (value : option string) : bool :=
  match value with
  | Some (String _ _) => true
  | _ => false
  end.

(** [a or b]. *)
Definition py_or (a b : option string) : option string :=
  if truthy a then a else b.

(** [HolidayUpdatesChecker.__init__].  [_configure_git_safe_directory]
    catches every exception and returns nothing; the repository handle is
    there when a token was given, PyGithub could be imported and
    [get_repo] did not raise.  With a token and PyGithub, [__init__] sends
    one request to the tracker, [get_repo("vacanza/holidays")], whose
    outcome is [get_repo_fault]; it reads and changes no issue, and the
    [State] of the checker, which counts the calls of [get_issues] and of
    [create_issue], does not record it. *)
Definition init_checker (h : Host) (files : string) (threshold : Z)
    (github_token : option string) (dry : bool) : Checker :=
  mkChecker files threshold dry
    (if truthy github_token && pygithub_available h
     then match get_repo_fault h with
          | None => true
          | Some _ => false           (* except Exception: self.repo = None *)
          end
     else false).

(** [write_github_output]: one line appended to the file named by
    [GITHUB_OUTPUT], if the variable is set and not empty. *)
Definition write_github_output (h : Host) (output_name value : string)
    (file : list string) : pyresult (list string) :=
  if truthy (env_github_output h) then
    match output_fault h with
    | Some e => Raise e
    | None => Ok (file ++ [(output_name ++ "=" ++ value)%string])%list
    end
  else Ok file.

(** How the process ends: [sys.exit(code)] or the end of [main] (code 0),
    or an exception that nothing catches (the interpreter prints the
    traceback and exits with status 1). *)
Inductive termination :=
| Exit (code : Z)
| Uncaught (e : exn).

Definition exit_status (t : termination) : Z :=
  match t with
  | Exit code => code
  | Uncaught _ => 1
  end.

Record Process := mkProcess {
  ending : termination;
  github_output : list string     (* the lines appended to $GITHUB_OUTPUT *)
}.

(** The checker [main] builds from the environment. *)
Definition main_checker (h : Host) (threshold : Z) : Checker :=
  init_checker h
    (getenv (env_files_path h) "holidays")
    threshold
    (py_or (env_input_github_token h) (env_github_token h))
    (String.eqb (py_lower (getenv (env_dry_run h) "false")) "true").

(** The three calls of [write_github_output] in [main]. *)
Definition write_outputs (h : Host) (result : RunResult) : pyresult (list string) :=
  match write_github_output h "outdated_files"
          (py_str (List.length (outdated_files result))) [] with
  | Raise e => Raise e
  | Ok file1 =>
      match write_github_output h "outdated_files_count"
              (py_str (List.length (outdated_files result))) file1 with
      | Raise e => Raise e
      | Ok file2 =>
          write_github_output h "issues_created" (py_str (created (stats result))) file2
      end
  end.

(** [main].  The [print] calls and the logging are left out, except for
    [os.listdir(repo_path)], which is evaluated for a log message outside
    the [try] and can raise. *)
Definition main (h : Host) (w : World) (s : State) : Process * State :=
  match int_of_text (getenv (env_threshold_days h) (IntLiteral 180)) with
  | Raise e => (mkProcess (Uncaught e) [], s)
  | Ok threshold =>
      if repo_path_exists h then
        match repo_path_listing h with
        | Some e => (mkProcess (Uncaught e) [], s)
        | None =>
            match run w (main_checker h threshold) s with
            | (Ok result, s') =>
                match write_outputs h result with
                | Ok file =>
                    if (0 <? errors (stats result))%nat
                    then (mkProcess (Exit 1) file, s')      (* sys.exit(1) *)
                    else (mkProcess (Exit 0) file, s')
                | Raise _ => (mkProcess (Exit 1) [], s')    (* except Exception *)
                end
            | (Raise _, s') => (mkProcess (Exit 1) [], s')  (* except Exception *)
            end
        end
      else (mkProcess (Exit 1) [], s)
  end.

Module HostExamples.

(** The action as the workflow runs it: a token, PyGithub installed, every
    input left at its default, outputs written. *)
Definition ci_host : Host :=
  mkHost (Some "holidays/countries") None (Some "ghp_token") None None
         (Some "/tmp/github_output") true None true None None.

(** The same without any token. *)
Definition tokenless_host : Host :=
  mkHost (Some "holidays/countries") None None (Some "") None
         (Some "/tmp/github_output") true None true None None.

(** Dry run asked for with [INPUT_DRY_RUN=True]. *)
Definition dry_host : Host :=
  mkHost (Some "holidays/countries") (Some (IntLiteral 180)) (Some "ghp_token") None
         (Some "True") (Some "/tmp/github_output") true None true None None.

(** [INPUT_THRESHOLD_DAYS=six months]. *)
Definition bad_threshold_host : Host :=
  mkHost (Some "holidays/countries") (Some NotAnInt) (Some "ghp_token") None None
         (Some "/tmp/github_output") true None true None None.

(** [aruba.py] is found by the queries with [--follow] and with [--all],
    not by the plain one. *)
Definition renamed_log (q : log_query) (path : string) : proc_outcome :=
  match q with
  | LogPlain => Exited 0 Blank
  | _ => Examples.history q path
  end.

Definition renamed_world : World :=
  Examples.world_of ["aruba.py"] renamed_log Examples.no_fault Examples.no_fault.

(** [git status] fails: the directory is no repository. *)
Definition no_repository_world : World :=
  mkWorld (Exited 128 Blank) Examples.history
    (fun _ => Examples.today * 1000000)
    (fun d => String.eqb d "holidays/countries")
    (fun _ => ["aruba.py"])
    TemplateNotFound
    (fun _ => "January 01, 2024"%string)
    (fun text _ => Ok text)
    Examples.no_fault Examples.no_fault
    LocalTime
    (fun us => round_half_even us (86400 * 1000000))
    (fun s => s).

(** A directory that is not there. *)
Definition elsewhere_checker : Checker := mkChecker "holidays/financial" 180 false true.

Definition tokenless_checker : Checker := mkChecker "holidays/countries" 180 false false.

(** A host east of Greenwich with summer time: local time is two hours
    ahead of UTC at the commits of the examples and one hour ahead at
    [today]; [datetime.fromtimestamp] accepts the years 1 to 9999 and the
    platform's [time_t] has 64 bits. *)
Definition summer_time (ts : Z) : local_time :=
  if (ts <? -62135596800) || (253402300799 <? ts) then
    if (ts <? -9223372036854775808) || (9223372036854775807 <? ts)
    then TimeOverflow else TimeYearOutOfRange
  else LocalTime (ts + (if ts <? Examples.today - 100 * Examples.day then 7200 else 3600)).

(** [aruba.py] carries the commit time 10^20, [chile.py] one in the year
    10000. *)
Definition strange_times (q : log_query) (path : string) : proc_outcome :=
  if String.eqb path "holidays/countries/aruba.py"
  then Exited 0 (Decimal 100000000000000000000)
  else if String.eqb path "holidays/countries/chile.py"
  then Exited 0 (Decimal 253402300800)
  else Examples.history q path.

Definition summer_world (log : log_query -> string -> proc_outcome) : World :=
  mkWorld (Exited 0 Blank) log
    (fun _ => (Examples.today + 3600) * 1000000)
    (fun d => String.eqb d "holidays/countries")
    (fun _ => ["aruba.py"; "chile.py"])
    TemplateNotFound
    (fun _ => "January 01, 2024"%string)
    (fun text _ => Ok text)
    Examples.no_fault Examples.no_fault
    summer_time
    (fun us => round_half_even us (86400 * 1000000))
    (fun s => s).

End HostExamples.

(* ===================================================================== *)
(** ** Facts about the state and about lists *)
(* ===================================================================== *)

Lemma ticks_0 (s : State) : ticks 0 s = s.
Proof. destruct s; reflexivity. Qed.

Lemma ticks_tick (n : nat) (s : State) : ticks n (tick s) = ticks (S n) s.
Proof. unfold ticks, tick; simpl. f_equal. lia. Qed.

Lemma subseq_In {A : Type} (l1 l2 : list A) (x : A) :
  subseq l1 l2 -> In x l1 -> In x l2.
Proof.
  induction 1 as [| y l1 l2 _ IH | y l1 l2 _ IH]; simpl; intros Hin.
  - exact Hin.
  - right. apply IH, Hin.
  - destruct Hin as [-> | Hin]; [now left | right; apply IH, Hin].
Qed.

Lemma append_inv_head (p a b : string) : (p ++ a)%string = (p ++ b)%string -> a = b.
Proof.
  induction p as [| c p IH]; simpl; intros H.
  - exact H.
  - injection H as H. apply IH, H.
Qed.

Lemma relative_path_inj (f g : FilePath) :
  fp_directory f = fp_directory g -> relative_path f = relative_path g -> f = g.
Proof.
  destruct f as [d n], g as [d' n']; unfold relative_path; simpl.
  intros <- H. apply append_inv_head in H. apply (append_inv_head "/") in H.
  now subst.
Qed.

(* ===================================================================== *)
(** ** The age resolver *)
(* ===================================================================== *)

Section Resolver.

Variable w : World.

(** [get_file_age_days] reads the clock once, after git has answered; the
    two [except] clauses turn the errors of [subprocess] into
    [RuntimeError]s. *)
Lemma get_file_age_days_unfold (f : FilePath) (s : State) :
  get_file_age_days w f s =
  match last_commit_date w (relative_path f) with
  | Ok date =>
      (Ok (round_days w (clock w (clock_reads s) - date * 1000000)), tick s)
  | Raise CalledProcessError =>
      (Raise (RuntimeError (GitCommandFailed (relative_path f))), s)
  | Raise OSError =>
      (Raise (RuntimeError (FileAccessFailed (relative_path f))), s)
  | Raise e => (Raise e, s)
  end.
Proof.
  unfold get_file_age_days, try_excepts, bind, lift, now, ret.
  destruct (last_commit_date w (relative_path f)) as [ts | []]; reflexivity.
Qed.

Lemma get_file_age_days_ok (f : FilePath) (s s' : State) (A : Z) :
  get_file_age_days w f s = (Ok A, s') -> s' = tick s.
Proof.
  rewrite get_file_age_days_unfold.
  destruct (last_commit_date w (relative_path f)) as [ts | []];
    intros H; inversion H; reflexivity.
Qed.

(** Whether the resolver fails does not depend on the state: the clock is
    read only after every git command has answered. *)
Lemma get_file_age_days_raise (f : FilePath) (s s' : State) (e : exn) :
  get_file_age_days w f s = (Raise e, s') ->
  s' = s /\ forall s0, get_file_age_days w f s0 = (Raise e, s0).
Proof.
  rewrite get_file_age_days_unfold.
  destruct (last_commit_date w (relative_path f)) as [ts | []] eqn:E;
    intros H; inversion H; subst; split; try reflexivity;
    intros s0; rewrite get_file_age_days_unfold, E; reflexivity.
Qed.

(** [get_last_commit_date] neither reads the clock nor touches the
    tracker. *)
Lemma get_last_commit_date_state (f : FilePath) (s s' : State) (r : pyresult Z) :
  get_last_commit_date w f s = (r, s') -> s' = s.
Proof.
  unfold get_last_commit_date, try_excepts, bind, lift, raise.
  destruct (run_git_log w LogPlain (relative_path f)) as [out | []]; simpl;
    try (intros H; inversion H; reflexivity).
  destruct (nonblank out); simpl.
  - destruct (py_int out) as [n | []]; simpl;
      try (intros H; inversion H; reflexivity).
    destruct (convert_timestamp w n) as [date | []]; simpl;
      intros H; inversion H; reflexivity.
  - intros H; inversion H; reflexivity.
Qed.

End Resolver.

(* ===================================================================== *)
(** ** The directory scanner *)
(* ===================================================================== *)

Section Scanner.

Variable w : World.
Variable directory : string.
Variable threshold : Z.

(** One turn of the loop of [scan_directory]. *)
Lemma scan_loop_cons (f : FilePath) (rest : list FilePath) (acc : list FileInfo) (s : State) :
  scan_loop w directory threshold (f :: rest) acc s =
  match get_file_age_days w f s with
  | (Ok A, s1) =>
      if A >? threshold then
        match get_last_commit_date w f s1 with
        | (Ok lm, s2) =>
            scan_loop w directory threshold rest
              (acc ++ [mkFileInfo (relative_path f) (extract_name_from_path w f)
                                  A lm threshold (path_name directory)]) s2
        | (Raise e, s2) => (Raise e, s2)
        end
      else scan_loop w directory threshold rest acc s1
  | (Raise e, s1) => (Raise e, s1)
  end.
Proof.
  simpl. unfold bind at 1.
  destruct (get_file_age_days w f s) as [[A | e] s1]; [| reflexivity].
  destruct (A >? threshold); [| reflexivity].
  unfold bind.
  destruct (get_last_commit_date w f s1) as [[lm | e] s2]; reflexivity.
Qed.

(** The loop over [l1 ++ l2] is the loop over [l1] followed, if it did not
    raise, by the loop over [l2]. *)
Lemma scan_loop_app (l1 l2 : list FilePath) :
  forall (acc : list FileInfo) (s : State),
  scan_loop w directory threshold (l1 ++ l2) acc s =
  match scan_loop w directory threshold l1 acc s with
  | (Ok acc', s1) => scan_loop w directory threshold l2 acc' s1
  | (Raise e, s1) => (Raise e, s1)
  end.
Proof.
  induction l1 as [| f l1 IH]; intros acc s.
  - reflexivity.
  - rewrite <- app_comm_cons, !scan_loop_cons.
    destruct (get_file_age_days w f s) as [[A | e] s1]; [| reflexivity].
    destruct (A >? threshold).
    + destruct (get_last_commit_date w f s1) as [[lm | e] s2]; [apply IH | reflexivity].
    + apply IH.
Qed.

(** What a scan that returns has done: every file was resolved, at one
    clock reading each, and the records are those of the files older than
    the threshold, in the order of the files. *)
Lemma scan_loop_ok (files : list FilePath) :
  forall (acc recs : list FileInfo) (s s' : State),
  scan_loop w directory threshold files acc s = (Ok recs, s') ->
  exists new : list FileInfo,
    recs = (acc ++ new)%list /\
    s' = ticks (List.length files) s /\
    (exists kept : list FilePath,
        subseq kept files /\
        map fi_path new = map relative_path kept /\
        map fi_name new = map (extract_name_from_path w) kept) /\
    Forall (fun r => fi_age_days r > threshold /\ fi_threshold_days r = threshold) new /\
    forall (i : nat) (f : FilePath),
      nth_error files i = Some f ->
      exists A : Z,
        get_file_age_days w f (ticks i s) = (Ok A, ticks (S i) s) /\
        (A > threshold -> In (relative_path f) (map fi_path new)) /\
        (NoDup (map relative_path files) ->
         In (relative_path f) (map fi_path new) -> A > threshold).
Proof.
  induction files as [| f0 rest IH]; intros acc recs s s' H.
  - simpl in H. inversion H; subst. exists []. rewrite app_nil_r, ticks_0.
    repeat split; auto.
    + exists []. repeat split; constructor.
    + intros [| i] f Hnth; discriminate.
  - rewrite scan_loop_cons in H.
    destruct (get_file_age_days w f0 s) as [[A0 | e] s1] eqn:Hage; [| discriminate].
    pose proof (get_file_age_days_ok _ _ _ _ _ Hage) as ->.
    destruct (A0 >? threshold) eqn:Hcmp.
    + destruct (get_last_commit_date w f0 (tick s)) as [[lm | e] s2] eqn:Hlm; [| discriminate].
      pose proof (get_last_commit_date_state _ _ _ _ _ Hlm) as ->.
      apply IH in H as (new & -> & -> & (kept & Hsub & Hpaths & Hnames) & Hall & Hfiles).
      exists (mkFileInfo (relative_path f0) (extract_name_from_path w f0)
                         A0 lm threshold (path_name directory) :: new).
      split; [now rewrite <- app_assoc |].
      split; [simpl; apply ticks_tick |].
      split; [exists (f0 :: kept); simpl; repeat split;
              [now constructor | now f_equal | now f_equal] |].
      split; [constructor; [simpl; split; [lia | reflexivity] | exact Hall] |].
      intros [| i] f Hnth; simpl in Hnth.
      * inversion Hnth; subst f. exists A0. rewrite ticks_0.
        change (ticks 1 s) with (tick s).
        repeat split; [exact Hage | now left | intros; lia].
      * destruct (Hfiles i f Hnth) as (A & HA & Hin & Hout).
        exists A. rewrite !ticks_tick in HA.
        repeat split; [exact HA | intros HgtA; right; now apply Hin |].
        simpl. intros Hnd [Heq | Hmem].
        -- inversion Hnd as [| ? ? Hnotin _]; subst. exfalso. apply Hnotin.
           rewrite Heq. apply in_map. eapply nth_error_In, Hnth.
        -- inversion Hnd; subst. now apply Hout.
    + apply IH in H as (new & -> & -> & (kept & Hsub & Hpaths & Hnames) & Hall & Hfiles).
      exists new.
      split; [reflexivity |].
      split; [simpl; apply ticks_tick |].
      split; [exists kept; repeat split; [now constructor | assumption | assumption] |].
      split; [exact Hall |].
      intros [| i] f Hnth; simpl in Hnth.
      * inversion Hnth; subst f. exists A0. rewrite ticks_0.
        change (ticks 1 s) with (tick s).
        repeat split; [exact Hage | intros; lia |].
        simpl. intros Hnd Hmem. exfalso.
        inversion Hnd as [| ? ? Hnotin _]; subst. apply Hnotin.
        rewrite Hpaths in Hmem. apply in_map_iff in Hmem as (g & <- & Hg).
        apply in_map. eapply subseq_In; eassumption.
      * destruct (Hfiles i f Hnth) as (A & HA & Hin & Hout).
        exists A. rewrite !ticks_tick in HA.
        repeat split; [exact HA | exact Hin |].
        simpl. intros Hnd. inversion Hnd; subst. now apply Hout.
Qed.

(** A file whose age cannot be resolved makes the loop raise, wherever the
    file stands in the list. *)
Lemma scan_loop_raise (files : list FilePath) (f : FilePath) (e : exn) :
  In f files ->
  (forall s0, get_file_age_days w f s0 = (Raise e, s0)) ->
  forall (acc : list FileInfo) (s : State),
  exists (e' : exn) (s' : State),
    scan_loop w directory threshold files acc s = (Raise e', s').
Proof.
  intros Hin Hf. induction files as [| f0 rest IH]; intros acc s; [destruct Hin |].
  rewrite scan_loop_cons.
  destruct Hin as [-> | Hin].
  - rewrite Hf. eauto.
  - destruct (get_file_age_days w f0 s) as [[A | e0] s1]; [| eauto].
    destruct (A >? threshold); [| now apply IH].
    destruct (get_last_commit_date w f0 s1) as [[lm | e0] s2]; [now apply IH | eauto].
Qed.

(** The eligible files of a directory with distinct entries have distinct
    paths. *)
Lemma python_files_NoDup :
  NoDup (listdir w directory) -> NoDup (map relative_path (python_files w directory)).
Proof.
  intros Hnd. unfold python_files, glob_py.
  apply NoDup_map_NoDup_ForallPairs.
  - intros f g Hf Hg Heq.
    apply filter_In in Hf as [Hf _]. apply filter_In in Hg as [Hg _].
    apply in_map_iff in Hf as (n & <- & _). apply in_map_iff in Hg as (m & <- & _).
    now apply relative_path_inj.
  - apply NoDup_filter. apply NoDup_map_NoDup_ForallPairs.
    + intros n m _ _ H. now inversion H.
    + now apply NoDup_filter.
Qed.

End Scanner.

(* ===================================================================== *)
(** ** Two worlds with the same view *)
(* ===================================================================== *)

Section SameView.

Variables w1 w2 : World.
Variable directory : string.
Hypothesis view : same_scan_view w1 w2 directory.

Lemma run_git_log_same_view (q : log_query) (path : string) :
  run_git_log w1 q path = run_git_log w2 q path.
Proof.
  destruct view as (_ & Hlog & _). unfold run_git_log. now rewrite Hlog.
Qed.

Lemma try_git_commands_same_view (path : string) (cmds : list log_query) :
  forall result, try_git_commands w1 path cmds result = try_git_commands w2 path cmds result.
Proof.
  induction cmds as [| q cmds IH]; intros result; simpl.
  - reflexivity.
  - rewrite run_git_log_same_view.
    destruct (run_git_log w2 q path) as [out | []]; try reflexivity.
    + destruct (nonblank out); [reflexivity | apply IH].
    + apply IH.
Qed.

Lemma last_commit_timestamp_same_view (path : string) :
  last_commit_timestamp w1 path = last_commit_timestamp w2 path.
Proof.
  unfold last_commit_timestamp, check_git_status.
  destruct view as (Hstatus & _). rewrite Hstatus, try_git_commands_same_view.
  reflexivity.
Qed.

Lemma convert_timestamp_same_view (ts : Z) :
  convert_timestamp w1 ts = convert_timestamp w2 ts.
Proof.
  destruct view as (_ & _ & _ & _ & _ & Htime & _).
  unfold convert_timestamp. now rewrite Htime.
Qed.

Lemma last_commit_date_same_view (path : string) :
  last_commit_date w1 path = last_commit_date w2 path.
Proof.
  unfold last_commit_date. rewrite last_commit_timestamp_same_view.
  destruct (last_commit_timestamp w2 path); [apply convert_timestamp_same_view | reflexivity].
Qed.

Lemma round_days_same_view (us : Z) : round_days w1 us = round_days w2 us.
Proof.
  destruct view as (_ & _ & _ & _ & _ & _ & Hround & _).
  unfold round_days. now rewrite Hround.
Qed.

Lemma extract_name_same_view (f : FilePath) :
  extract_name_from_path w1 f = extract_name_from_path w2 f.
Proof.
  destruct view as (_ & _ & _ & _ & _ & _ & _ & Htitle).
  unfold extract_name_from_path, py_title. now rewrite Htitle.
Qed.

Lemma get_last_commit_date_same_view (f : FilePath) (s1 s2 : State) :
  fst (get_last_commit_date w1 f s1) = fst (get_last_commit_date w2 f s2).
Proof.
  unfold get_last_commit_date, try_excepts, bind, lift, raise.
  rewrite run_git_log_same_view.
  destruct (run_git_log w2 LogPlain (relative_path f)) as [out | []]; simpl;
    try reflexivity.
  destruct (nonblank out); simpl; [| reflexivity].
  destruct (py_int out) as [n | []]; simpl; try reflexivity.
  rewrite convert_timestamp_same_view.
  destruct (convert_timestamp w2 n) as [date | []]; reflexivity.
Qed.

Lemma python_files_same_view : python_files w1 directory = python_files w2 directory.
Proof.
  destruct view as (_ & _ & _ & _ & Hls & _). unfold python_files, glob_py. now rewrite Hls.
Qed.

Lemma scan_loop_same_view (threshold : Z) (files : list FilePath) :
  forall (acc : list FileInfo) (s1 s2 : State),
  clock_reads s1 = clock_reads s2 ->
  fst (scan_loop w1 directory threshold files acc s1) =
  fst (scan_loop w2 directory threshold files acc s2).
Proof.
  induction files as [| f rest IH]; intros acc s1 s2 Hreads.
  - reflexivity.
  - rewrite !scan_loop_cons, !get_file_age_days_unfold.
    rewrite last_commit_date_same_view.
    destruct view as (_ & _ & Hclock & _).
    destruct (last_commit_date w2 (relative_path f)) as [date | []]; try reflexivity.
    rewrite Hclock, Hreads, round_days_same_view, extract_name_same_view.
    destruct (_ >? threshold).
    + pose proof (get_last_commit_date_same_view f (tick s1) (tick s2)) as Hlm.
      destruct (get_last_commit_date w1 f (tick s1)) as [r1 t1] eqn:E1.
      destruct (get_last_commit_date w2 f (tick s2)) as [r2 t2] eqn:E2.
      apply get_last_commit_date_state in E1, E2. simpl in Hlm. subst.
      destruct r2 as [lm | e]; [| reflexivity].
      apply IH. simpl. now f_equal.
    + apply IH. simpl. now f_equal.
Qed.

Lemma scan_directory_same_view (threshold : Z) (s1 s2 : State) :
  clock_reads s1 = clock_reads s2 ->
  fst (scan_directory w1 directory threshold s1) =
  fst (scan_directory w2 directory threshold s2).
Proof.
  intros Hreads. unfold scan_directory.
  destruct view as (_ & _ & _ & Hex & _). rewrite Hex, python_files_same_view.
  destruct (negb (dir_exists w2 directory)); [reflexivity |].
  now apply scan_loop_same_view.
Qed.

End SameView.

Lemma subseq_nil_l {A : Type} (l : list A) : subseq [] l.
Proof. induction l; constructor; assumption. Qed.

(** A scan that returns has read the clock once per eligible file and has
    kept, in their order, the files older than the threshold. *)
Lemma scan_directory_ok (w : World) (directory : string) (threshold : Z)
    (s s' : State) (recs : list FileInfo) :
  dir_exists w directory = true ->
  scan_directory w directory threshold s = (Ok recs, s') ->
  scan_loop w directory threshold (python_files w directory) [] s = (Ok recs, s').
Proof.
  unfold scan_directory. intros ->. simpl. auto.
Qed.

(* ===================================================================== *)
(** ** Properties of the directory scan *)
(* ===================================================================== *)

(** C1.  When a scan of a directory returns, every eligible file was
    resolved to an age [A] (at the clock reading of its turn), and the
    file's path is among the returned records if and only if
    [A > threshold]; a file with [A = threshold] is not outdated.  Every
    returned record carries an age above the threshold. *)
Theorem scan_directory_outdated_iff (w : World) (directory : string) (threshold : Z)
    (s s' : State) (recs : list FileInfo) :
  dir_exists w directory = true ->
  NoDup (listdir w directory) ->
  scan_directory w directory threshold s = (Ok recs, s') ->
  (forall (i : nat) (f : FilePath),
      nth_error (python_files w directory) i = Some f ->
      exists A : Z,
        get_file_age_days w f (ticks i s) = (Ok A, ticks (S i) s) /\
        (In (relative_path f) (map fi_path recs) <-> A > threshold)) /\
  Forall (fun r => fi_age_days r > threshold) recs.
Proof.
  intros Hdir Hnd Hscan.
  apply scan_directory_ok in Hscan; [| exact Hdir].
  apply scan_loop_ok in Hscan as (new & -> & _ & _ & Hall & Hfiles).
  simpl. split.
  - intros i f Hnth. destruct (Hfiles i f Hnth) as (A & HA & Hin & Hout).
    exists A. split; [exact HA |]. split; [| exact Hin].
    apply Hout. now apply python_files_NoDup.
  - eapply Forall_impl; [| exact Hall]. now intros r [Hr _].
Qed.

Lemma scan_directory_outdated_iff_witness :
  (forall (i : nat) (f : FilePath),
      nth_error (python_files Examples.aruba_world "holidays/countries") i = Some f ->
      exists A : Z,
        get_file_age_days Examples.aruba_world f (ticks i Examples.start)
          = (Ok A, ticks (S i) Examples.start) /\
        (In (relative_path f) (map fi_path [Examples.aruba_record]) <-> A > 180)) /\
  Forall (fun r => fi_age_days r > 180) [Examples.aruba_record].
Proof.
  apply (scan_directory_outdated_iff Examples.aruba_world "holidays/countries" 180
           Examples.start (ticks 3 Examples.start) [Examples.aruba_record]).
  - reflexivity.
  - repeat constructor; simpl; intuition discriminate.
  - reflexivity.
Defined.

(** C5.  A file of the directory whose age cannot be resolved is fatal to
    the scan: [scan_directory] raises, whatever the threshold and wherever
    the file stands; so does [run]; and when the files before it were
    scanned without an error, the exception raised is that of the resolver
    and the records gathered so far are not returned. *)
Theorem scan_resolution_failure_is_fatal (w : World) (directory : string)
    (f : FilePath) (e : exn) (s1 s2 : State) :
  dir_exists w directory = true ->
  In f (python_files w directory) ->
  get_file_age_days w f s1 = (Raise e, s2) ->
  (forall (threshold : Z) (s : State),
      exists (e' : exn) (s' : State),
        scan_directory w directory threshold s = (Raise e', s')) /\
  (forall (self : Checker) (s : State),
      files_path self = directory ->
      exists (e' : exn) (s' : State), run w self s = (Raise e', s')) /\
  (forall (threshold : Z) (before after : list FilePath) (gathered : list FileInfo)
          (s s' : State),
      python_files w directory = (before ++ f :: after)%list ->
      scan_loop w directory threshold before [] s = (Ok gathered, s') ->
      scan_directory w directory threshold s = (Raise e, s')).
Proof.
  intros Hdir Hin Hage.
  apply get_file_age_days_raise in Hage as [_ Hany].
  assert (Hscan : forall threshold s, exists e' s',
             scan_directory w directory threshold s = (Raise e', s')).
  { intros threshold s. unfold scan_directory. rewrite Hdir. simpl.
    eapply scan_loop_raise; eassumption. }
  split; [exact Hscan |]. split.
  - intros self s <-.
    destruct (Hscan (threshold_days self) s) as (e' & s' & H).
    exists e', s'. unfold run, check_freshness, bind. now rewrite H.
  - intros threshold before after gathered s s' Hfiles Hbefore.
    unfold scan_directory. rewrite Hdir, Hfiles. cbn [negb].
    rewrite scan_loop_app, Hbefore, scan_loop_cons, Hany. reflexivity.
Qed.

Lemma scan_resolution_failure_is_fatal_witness :
  (forall (threshold : Z) (s : State),
      exists (e' : exn) (s' : State),
        scan_directory Examples.untracked_world "holidays/countries" threshold s
          = (Raise e', s')) /\
  (forall (self : Checker) (s : State),
      files_path self = "holidays/countries" ->
      exists (e' : exn) (s' : State), run Examples.untracked_world self s = (Raise e', s')) /\
  (forall (threshold : Z) (before after : list FilePath) (gathered : list FileInfo)
          (s s' : State),
      python_files Examples.untracked_world "holidays/countries"
        = (before ++ mkFilePath "holidays/countries" "south_africa.py" :: after)%list ->
      scan_loop Examples.untracked_world "holidays/countries" threshold before [] s
        = (Ok gathered, s') ->
      scan_directory Examples.untracked_world "holidays/countries" threshold s
        = (Raise (RuntimeError (NoCommitHistory "holidays/countries/south_africa.py")), s')).
Proof.
  apply (scan_resolution_failure_is_fatal Examples.untracked_world "holidays/countries"
           (mkFilePath "holidays/countries" "south_africa.py")
           (RuntimeError (NoCommitHistory "holidays/countries/south_africa.py"))
           Examples.start Examples.start).
  - reflexivity.
  - simpl. right. left. reflexivity.
  - reflexivity.
Defined.

(** C8, as the specification states it, fails: the same three files, with
    the same commits, listed by the operating system in two orders, give
    two different sequences of records, and the one of the listing
    [zambia.py, chile.py, aruba.py] is not in lexicographic order of the
    paths. *)
Lemma scan_order_counterexample :
  (forall name : string,
      In name (listdir Examples.listed_za "holidays/countries") <->
      In name (listdir Examples.listed_az "holidays/countries")) /\
  git_log Examples.listed_za = git_log Examples.listed_az /\
  clock Examples.listed_za = clock Examples.listed_az /\
  fst (scan_directory Examples.listed_za "holidays/countries" 180 Examples.start)
    = Ok [Examples.chile_record; Examples.aruba_record] /\
  fst (scan_directory Examples.listed_az "holidays/countries" 180 Examples.start)
    = Ok [Examples.aruba_record; Examples.chile_record] /\
  lex_sorted (map fi_path [Examples.chile_record; Examples.aruba_record]) = false.
Proof.
  split; [intros name; simpl; tauto |].
  repeat split; reflexivity.
Qed.

(** C8, amended.  The scan takes the eligible files in the order in which
    the directory listing gives them: the paths of the returned records are
    those of a subsequence of the eligible files of the listing.  The
    result is determined by what the scan sees: a second scan in a world
    with the same listing (in the same order), the same answers of git and
    the same clock returns the same records in the same order. *)
Theorem scan_directory_listing_order (w : World) (directory : string) (threshold : Z)
    (s s' : State) (recs : list FileInfo) :
  scan_directory w directory threshold s = (Ok recs, s') ->
  (exists kept : list FilePath,
      subseq kept (python_files w directory) /\
      map fi_path recs = map relative_path kept) /\
  (forall (w2 : World) (s2 : State),
      same_scan_view w w2 directory ->
      clock_reads s2 = clock_reads s ->
      fst (scan_directory w2 directory threshold s2) = Ok recs).
Proof.
  intros Hscan. split.
  - unfold scan_directory in Hscan.
    destruct (negb (dir_exists w directory)).
    + inversion Hscan; subst. exists []. split; [apply subseq_nil_l | reflexivity].
    + apply scan_loop_ok in Hscan as (new & -> & _ & (kept & Hsub & Hpaths & _) & _).
      exists kept. split; assumption.
  - intros w2 s2 Hview Hreads.
    rewrite <- (scan_directory_same_view w w2 directory Hview threshold s s2)
      by (symmetry; exact Hreads).
    now rewrite Hscan.
Qed.

Lemma scan_directory_listing_order_witness :
  (exists kept : list FilePath,
      subseq kept (python_files Examples.listed_za "holidays/countries") /\
      map fi_path [Examples.chile_record; Examples.aruba_record] = map relative_path kept) /\
  (forall (w2 : World) (s2 : State),
      same_scan_view Examples.listed_za w2 "holidays/countries" ->
      clock_reads s2 = clock_reads Examples.start ->
      fst (scan_directory w2 "holidays/countries" 180 s2)
        = Ok [Examples.chile_record; Examples.aruba_record]).
Proof.
  apply (scan_directory_listing_order Examples.listed_za "holidays/countries" 180
           Examples.start (ticks 3 Examples.start)).
  reflexivity.
Defined.

(* ===================================================================== *)
(** ** Properties of the age resolver *)
(* ===================================================================== *)

(** C9, as the specification states it, fails: for a file whose last commit
    is found only by the query over all refs, neither the rename-following
    query nor the plain query yields a record, and yet the resolver does
    not fail: it returns the age found by a third query. *)
Lemma resolver_third_query_counterexample :
  query_yield Examples.other_branch_world "holidays/countries/aruba.py" LogFollow = None /\
  query_yield Examples.other_branch_world "holidays/countries/aruba.py" LogPlain = None /\
  first_yield Examples.other_branch_world "holidays/countries/aruba.py"
    [LogFollow; LogPlain] = None /\
  get_file_age_days Examples.other_branch_world Examples.aruba_file Examples.start
    = (Ok 200, tick Examples.start).
Proof. repeat split; reflexivity. Qed.

Ltac resolver_cases w f :=
  rewrite get_file_age_days_unfold;
  unfold last_commit_date, last_commit_timestamp, convert_timestamp, age_from_record,
    query_yield, query_silent, git_commands, try_git_commands, run_git_log in *;
  repeat match goal with
         | H : check_git_status w = Ok tt |- _ => rewrite H; clear H
         | |- context [git_log w ?q (relative_path f)] =>
             destruct (git_log w q (relative_path f)) as [? [| ? |] |]
         | H : context [git_log w ?q (relative_path f)] |- _ =>
             destruct (git_log w q (relative_path f)) as [? [| ? |] |]
         | |- context [?rc =? 0] => destruct (rc =? 0)
         | H : context [?rc =? 0] |- _ => destruct (rc =? 0)
         end;
  simpl in *; try discriminate; try congruence;
  repeat match goal with
         | H : Some _ = Some _ |- _ => injection H as H; subst
         end;
  simpl; try reflexivity;
  repeat match goal with
         | |- context [fromtimestamp w ?ts] => destruct (fromtimestamp w ts)
         end;
  try reflexivity.

(** C9, amended.  Once [git status] has succeeded, the resolver asks in a
    preference order of three steps: the rename-following query, then the
    plain query, then the query over all refs.  A query is run only if
    every query before it was run and ended without a record (another exit
    status than 0, or nothing printed): as soon as a query yields a record,
    that record decides the result, whatever the later queries would do,
    even if they could not be started.  The resolver fails with the
    [RuntimeError] "No git commit history found" when all three queries
    ended without a record, and with the [RuntimeError] "Failed to access
    file" when the query whose turn it is cannot be started. *)
Theorem resolver_preference_order (w : World) (f : FilePath) (s : State) :
  check_git_status w = Ok tt ->
  (forall out : cmd_output,
      query_yield w (relative_path f) LogFollow = Some out ->
      get_file_age_days w f s = age_from_record w (relative_path f) out s) /\
  (forall out : cmd_output,
      query_silent w (relative_path f) LogFollow = true ->
      query_yield w (relative_path f) LogPlain = Some out ->
      get_file_age_days w f s = age_from_record w (relative_path f) out s) /\
  (forall out : cmd_output,
      query_silent w (relative_path f) LogFollow = true ->
      query_silent w (relative_path f) LogPlain = true ->
      query_yield w (relative_path f) LogAll = Some out ->
      get_file_age_days w f s = age_from_record w (relative_path f) out s) /\
  (query_silent w (relative_path f) LogFollow = true ->
   query_silent w (relative_path f) LogPlain = true ->
   query_silent w (relative_path f) LogAll = true ->
   get_file_age_days w f s
   = (Raise (RuntimeError (NoCommitHistory (relative_path f))), s)) /\
  (git_log w LogFollow (relative_path f) = NotStarted ->
   get_file_age_days w f s
   = (Raise (RuntimeError (FileAccessFailed (relative_path f))), s)) /\
  (query_silent w (relative_path f) LogFollow = true ->
   git_log w LogPlain (relative_path f) = NotStarted ->
   get_file_age_days w f s
   = (Raise (RuntimeError (FileAccessFailed (relative_path f))), s)) /\
  (query_silent w (relative_path f) LogFollow = true ->
   query_silent w (relative_path f) LogPlain = true ->
   git_log w LogAll (relative_path f) = NotStarted ->
   get_file_age_days w f s
   = (Raise (RuntimeError (FileAccessFailed (relative_path f))), s)).
Proof.
  intros Hstatus.
  repeat split; intros; resolver_cases w f.
Qed.

Lemma resolver_preference_order_witness :
  get_file_age_days Examples.other_branch_world Examples.aruba_file Examples.start
  = age_from_record Examples.other_branch_world (relative_path Examples.aruba_file)
      (Decimal (Examples.today - 200 * Examples.day)) Examples.start.
Proof.
  apply (proj1 (proj2 (proj2 (resolver_preference_order Examples.other_branch_world
                                Examples.aruba_file Examples.start eq_refl)))).
  - reflexivity.
  - reflexivity.
  - reflexivity.
Defined.


(* ===================================================================== *)
(** ** The issue reconciler *)
(* ===================================================================== *)

Section Reconciler.

Variable w : World.
Variable self : Checker.


Lemma find_title_present (title : string) (issues : list Issue) (fault : option exn)
    (issue : Issue) :
  In issue issues -> issue_title issue = title ->
  exists found : Issue, find_title title issues fault = Ok (Some found).
Proof.
  intros Hin Htitle. induction issues as [| head rest IH]; simpl; [destruct Hin |].
  destruct (String.eqb (issue_title head) title) eqn:Hhead; [eauto |].
  destruct Hin as [-> | Hin]; [| now apply IH].
  rewrite Htitle, String.eqb_refl in Hhead. discriminate.
Qed.


(** A listing that is not interrupted and shows an issue of that title. *)
Lemma find_existing_issue_some (r : FileInfo) (s : State) (issue : Issue) :
  repo self = true ->
  search_fault w (search_calls s) = None ->
  In issue (open_issues s) -> issue_title issue = create_issue_title r ->
  exists found : Issue, find_existing_issue w self r s = (Ok (Some found), searched s).
Proof.
  intros Hrepo Hfault Hin Htitle.
  unfold find_existing_issue. rewrite Hrepo. cbn [negb].
  unfold try_excepts, bind, get_issues, lift. rewrite Hfault. simpl.
  destruct (find_title_present _ _ None _ Hin Htitle) as (found & ->). eauto.
Qed.


(** [create_github_issue] of a checker that is not in dry-run mode and has
    a repository handle. *)
Lemma create_github_issue_live (r : FileInfo) (s : State) :
  dry_run self = false -> repo self = true ->
  create_github_issue w self r s =
  match find_existing_issue w self r s with
  | (Ok (Some _), s1) => (Ok true, s1)
  | (Ok None, s1) =>
      match create_issue_body w r with
      | Ok body =>
          match create_fault w (create_calls s1) with
          | None =>
              (Ok true,
               issue_opened
                 (mkIssue (next_number s1) (create_issue_title r) body
                          ["holiday-updates"; "maintenance"; "data-update"]) s1)
          | Some GithubException => (Ok false, create_failed s1)
          | Some e => (Raise e, create_failed s1)
          end
      | Raise GithubException => (Ok false, s1)
      | Raise e => (Raise e, s1)
      end
  | (Raise e, s1) => (Raise e, s1)
  end.
Proof.
  intros Hdry Hrepo. unfold create_github_issue. rewrite Hdry, Hrepo. simpl.
  unfold bind at 1.
  destruct (find_existing_issue w self r s) as [[[found |] | e] s1]; try reflexivity.
  unfold try_excepts, bind, lift, repo_create_issue, ret.
  destruct (create_issue_body w r) as [body | []]; try reflexivity.
  destruct (create_fault w (create_calls s1)) as [[] |]; reflexivity.
Qed.

(** One turn of the loop of [process_outdated_files]: [True] counts as
    created, [False] and every exception as an error; the loop goes on. *)
Lemma process_loop_cons (r : FileInfo) (rest : list FileInfo) (st : Stats) (s : State) :
  process_loop w self (r :: rest) st s =
  match create_github_issue w self r s with
  | (Ok true, s1) => process_loop w self rest (count_created st) s1
  | (Ok false, s1) => process_loop w self rest (count_error st) s1
  | (Raise _, s1) => process_loop w self rest (count_error st) s1
  end.
Proof.
  simpl. unfold bind at 1. unfold try_excepts, bind.
  destruct (create_github_issue w self r s) as [[[] | e] s1]; reflexivity.
Qed.

(** The loop never raises, never touches the clock or the counter of
    skipped files, and counts every record once. *)
Lemma process_loop_total (files : list FileInfo) :
  forall (st : Stats) (s : State),
  exists (st' : Stats) (s' : State),
    process_loop w self files st s = (Ok st', s') /\
    skipped st' = skipped st /\
    (created st' + errors st' = created st + errors st + List.length files)%nat.
Proof.
  induction files as [| r rest IH]; intros st s.
  - exists st, s. simpl. repeat split. lia.
  - rewrite process_loop_cons.
    destruct (create_github_issue w self r s) as [[[] | e] s1];
      match goal with
      | |- context [process_loop w self rest ?st1 s1] =>
          destruct (IH st1 s1) as (st' & s' & -> & Hsk & Hsum)
      end;
      exists st', s'; simpl in *; repeat split; try assumption; lia.
Qed.

(** In dry-run mode nothing is asked of the tracker. *)
Lemma create_github_issue_dry (r : FileInfo) (s : State) :
  dry_run self = true -> create_github_issue w self r s = (Ok true, s).
Proof. intros Hdry. unfold create_github_issue. now rewrite Hdry. Qed.

Lemma process_loop_dry (files : list FileInfo) :
  dry_run self = true ->
  forall (st : Stats) (s : State),
  process_loop w self files st s =
  (Ok (mkStats (List.length files + created st) (skipped st) (errors st)), s).
Proof.
  intros Hdry. induction files as [| r rest IH]; intros st s.
  - destruct st; reflexivity.
  - rewrite process_loop_cons, create_github_issue_dry by assumption.
    rewrite IH. simpl. do 2 f_equal. f_equal. lia.
Qed.

(** [run] is the scan, then the reconciliation, then one reading of the
    clock. *)
Lemma run_unfold (s : State) :
  run w self s =
  match check_freshness w self s with
  | (Ok recs, s1) =>
      match process_outdated_files w self recs s1 with
      | (Ok st, s2) => (Ok (mkRunResult recs st (clock w (clock_reads s2))), tick s2)
      | (Raise e, s2) => (Raise e, s2)
      end
  | (Raise e, s1) => (Raise e, s1)
  end.
Proof.
  unfold run, bind, now, ret.
  destruct (check_freshness w self s) as [[recs | e] s1]; [| reflexivity].
  destruct (process_outdated_files w self recs s1) as [[st | e] s2]; reflexivity.
Qed.

(** The scan changes nothing but the number of clock readings. *)
Lemma check_freshness_state (s s' : State) (recs : list FileInfo) :
  check_freshness w self s = (Ok recs, s') -> exists n : nat, s' = ticks n s.
Proof.
  unfold check_freshness, scan_directory.
  destruct (negb (dir_exists w (files_path self))).
  - intros H; inversion H. exists 0%nat. now rewrite ticks_0.
  - intros H. apply scan_loop_ok in H as (_ & _ & -> & _). eauto.
Qed.

End Reconciler.

(* ===================================================================== *)
(** ** Properties of the reconciliation and of the run *)
(* ===================================================================== *)

(** C2, as the specification states it, fails in its second half: a record
    whose issue is open in the tracker is counted as an error, not as
    created, when the checker has no repository handle (no token was
    given) and is not in dry-run mode, and also when both the listing of
    the open issues and the creation raise [GithubException]. *)
Lemma open_issue_counted_as_error_counterexample :
  In Examples.aruba_issue (open_issues Examples.start_with_aruba) /\
  issue_title Examples.aruba_issue = create_issue_title Examples.aruba_record /\
  process_outdated_files Examples.aruba_world HostExamples.tokenless_checker
    [Examples.aruba_record] Examples.start_with_aruba
    = (Ok (mkStats 0 0 1), Examples.start_with_aruba) /\
  fst (process_outdated_files Examples.tracker_down_world Examples.checker
         [Examples.aruba_record] Examples.start_with_aruba)
    = Ok (mkStats 0 0 1).
Proof.
  split; [now left |]. repeat split; reflexivity.
Qed.

(** C2, amended.  The reconciliation of any list of outdated records
    completes, and its counters satisfy
    [created + errors = number of records]; the same holds for the result
    of every [run] that returns.  A record whose issue is already open in
    the tracker is counted as created, not as an error, and no issue is
    added, provided the checker has its repository handle and the listing
    of the open issues is not interrupted by an error. *)
Theorem stats_account_for_every_record (w : World) (self : Checker) (s : State) :
  (forall files : list FileInfo,
      exists (st : Stats) (s' : State),
        process_outdated_files w self files s = (Ok st, s') /\
        (created st + errors st = List.length files)%nat) /\
  (forall (result : RunResult) (s' : State),
      run w self s = (Ok result, s') ->
      (created (stats result) + errors (stats result)
       = List.length (outdated_files result))%nat) /\
  (forall (r : FileInfo) (issue : Issue),
      repo self = true ->
      search_fault w (search_calls s) = None ->
      In issue (open_issues s) ->
      issue_title issue = create_issue_title r ->
      exists s' : State,
        create_github_issue w self r s = (Ok true, s') /\
        open_issues s' = open_issues s /\
        process_outdated_files w self [r] s = (Ok (mkStats 1 0 0), s')).
Proof.
  split; [| split].
  - intros files. unfold process_outdated_files.
    destruct (process_loop_total w self files (mkStats 0 0 0) s)
      as (st & s' & H & _ & Hsum).
    exists st, s'. split; [exact H | exact Hsum].
  - intros result s' Hrun. rewrite run_unfold in Hrun.
    destruct (check_freshness w self s) as [[recs | e] s1]; [| discriminate].
    unfold process_outdated_files in Hrun.
    destruct (process_loop_total w self recs (mkStats 0 0 0) s1)
      as (st & s2 & H & _ & Hsum).
    rewrite H in Hrun. inversion Hrun; subst. exact Hsum.
  - intros r issue Hrepo Hfault Hin Htitle.
    assert (Hcreate : exists s', create_github_issue w self r s = (Ok true, s') /\
                                 open_issues s' = open_issues s).
    { destruct (dry_run self) eqn:Hdry.
      - exists s. split; [now apply create_github_issue_dry | reflexivity].
      - destruct (find_existing_issue_some w self r s issue Hrepo Hfault Hin Htitle)
          as (found & Hfound).
        exists (searched s). split; [| reflexivity].
        rewrite create_github_issue_live by assumption. now rewrite Hfound. }
    destruct Hcreate as (s' & Hcreate & Hopen).
    exists s'. repeat split; try assumption.
    unfold process_outdated_files. rewrite process_loop_cons, Hcreate. reflexivity.
Qed.

Lemma stats_account_for_every_record_witness :
  exists s' : State,
    create_github_issue Examples.aruba_world Examples.checker Examples.aruba_record
      Examples.start_with_aruba = (Ok true, s') /\
    open_issues s' = open_issues Examples.start_with_aruba /\
    process_outdated_files Examples.aruba_world Examples.checker [Examples.aruba_record]
      Examples.start_with_aruba = (Ok (mkStats 1 0 0), s').
Proof.
  apply (proj2 (proj2 (stats_account_for_every_record Examples.aruba_world
                         Examples.checker Examples.start_with_aruba))
           Examples.aruba_record Examples.aruba_issue).
  - reflexivity.
  - reflexivity.
  - simpl. left. reflexivity.
  - reflexivity.
Defined.




(** C4, as the specification states it, fails: [run] does not catch what
    the scan raises.  With a file that was never committed in the
    directory, [run] returns no result: it raises the [RuntimeError] of the
    resolver. *)
Lemma run_raises_counterexample :
  run Examples.untracked_world Examples.checker Examples.start
    = (Raise (RuntimeError (NoCommitHistory "holidays/countries/south_africa.py")),
       tick Examples.start) /\
  ~ (exists (result : RunResult) (s' : State),
        run Examples.untracked_world Examples.checker Examples.start = (Ok result, s')).
Proof.
  split; [reflexivity |]. intros (result & s' & H). discriminate H.
Qed.

(** C4, amended.  Whenever the scan returns, [run] returns a result,
    whatever happens during the reconciliation: the records of the scan,
    the counters of the reconciliation (which account for every record)
    and the time of the clock read at the end.  When the scan raises, [run]
    raises the same exception. *)
Theorem run_returns_when_scan_returns (w : World) (self : Checker) (s : State) :
  (forall (recs : list FileInfo) (s1 : State),
      check_freshness w self s = (Ok recs, s1) ->
      exists (st : Stats) (s2 : State),
        process_outdated_files w self recs s1 = (Ok st, s2) /\
        run w self s = (Ok (mkRunResult recs st (clock w (clock_reads s2))), tick s2) /\
        (created st + errors st = List.length recs)%nat) /\
  (forall (e : exn) (s1 : State),
      check_freshness w self s = (Raise e, s1) ->
      run w self s = (Raise e, s1)).
Proof.
  split.
  - intros recs s1 Hscan. unfold process_outdated_files.
    destruct (process_loop_total w self recs (mkStats 0 0 0) s1)
      as (st & s2 & H & _ & Hsum).
    exists st, s2. repeat split; [exact H | | exact Hsum].
    rewrite run_unfold, Hscan. unfold process_outdated_files. now rewrite H.
  - intros e s1 Hscan. now rewrite run_unfold, Hscan.
Qed.

Lemma run_returns_when_scan_returns_witness :
  exists (st : Stats) (s2 : State),
    process_outdated_files Examples.create_down_world Examples.checker
      [Examples.aruba_record; Examples.chile_record] (ticks 2 Examples.start)
      = (Ok st, s2) /\
    run Examples.create_down_world Examples.checker Examples.start
      = (Ok (mkRunResult [Examples.aruba_record; Examples.chile_record] st
               (clock Examples.create_down_world (clock_reads s2))), tick s2) /\
    (created st + errors st
     = List.length [Examples.aruba_record; Examples.chile_record])%nat.
Proof.
  apply (proj1 (run_returns_when_scan_returns Examples.create_down_world
                  Examples.checker Examples.start)).
  reflexivity.
Defined.


(* ===================================================================== *)
(** ** The name shown for a file *)
(* ===================================================================== *)

Lemma length_append (s t : string) :
  String.length (s ++ t) = (String.length s + String.length t)%nat.
Proof. induction s as [| c s IH]; simpl; [reflexivity | now rewrite IH]. Qed.

Lemma substring_prefix (s t : string) : substring 0 (String.length s) (s ++ t) = s.
Proof.
  induction s as [| c s IH]; simpl.
  - now destruct t.
  - now rewrite IH.
Qed.

Lemma substring_suffix (s t : string) :
  substring (String.length s) (String.length t) (s ++ t) = t.
Proof.
  induction s as [| c s IH]; simpl; [| exact IH].
  induction t as [| d t IHt]; simpl; [reflexivity | now rewrite IHt].
Qed.




Lemma rfind_from_app (c : ascii) (s t : string) :
  forall i last : Z,
  PyStr.rfind_from c (s ++ t) i last =
  PyStr.rfind_from c t (i + PyStr.len s) (PyStr.rfind_from c s i last).
Proof.
  unfold PyStr.len. induction s as [| d s IH]; intros i last; simpl String.length.
  - simpl. now rewrite Z.add_0_r.
  - cbn [append PyStr.rfind_from]. rewrite IH. f_equal. lia.
Qed.

(** The stem of [<stem>.py] is [<stem>], whatever dots it contains. *)
Lemma stem_of_python_file (stem : string) :
  stem <> ""%string -> PyStr.stem (stem ++ ".py") = stem.
Proof.
  intros Hstem. unfold PyStr.stem, PyStr.rfind. rewrite rfind_from_app.
  cbn [PyStr.rfind_from Ascii.eqb Bool.eqb]. simpl Ascii.eqb. cbv iota.
  unfold PyStr.len. rewrite length_append. simpl String.length.
  replace (0 <? 0 + Z.of_nat (String.length stem)) with true.
  - replace (0 + Z.of_nat (String.length stem)
             <? Z.of_nat (String.length stem + 3) - 1) with true
      by (symmetry; apply Z.ltb_lt; lia).
    simpl andb. cbv iota. rewrite Z.add_0_l, Nat2Z.id. apply substring_prefix.
  - symmetry. apply Z.ltb_lt. destruct stem; [congruence | simpl; lia].
Qed.

Lemma is_ascii_replace (s : string) :
  PyStr.is_ascii (PyStr.replace "_" " " s) = PyStr.is_ascii s.
Proof.
  induction s as [| c s IH]; simpl; [reflexivity |]. rewrite IH. f_equal.
  destruct (Ascii.eqb c "_") eqn:Hc; [| reflexivity].
  apply Ascii.eqb_eq in Hc. now subst c.
Qed.

Lemma replace_underscores (s : string) :
  underscores_to_spaces s (PyStr.replace "_" " " s).
Proof.
  split.
  - induction s as [| c s IH]; simpl; [reflexivity | now rewrite IH].
  - induction s as [| c s IH]; intros i d Hget; [destruct i; discriminate |].
    destruct i as [| i]; simpl in *.
    + now inversion Hget.
    + now apply IH.
Qed.

(** The two forms of a letter, and what is no letter. *)
Lemma to_upper_capital (c : ascii) : is_letter c = true -> capital_of c (PyStr.to_upper c).
Proof.
  destruct c as [[] [] [] [] [] [] [] []]; intros H; try discriminate H;
    (split; [cbv; lia | (left; reflexivity) || (right; reflexivity)]).
Qed.

Lemma to_lower_small (c : ascii) : is_letter c = true -> small_of c (PyStr.to_lower c).
Proof.
  destruct c as [[] [] [] [] [] [] [] []]; intros H; try discriminate H;
    (split; [cbv; lia | (left; reflexivity) || (right; reflexivity)]).
Qed.

Lemma no_letter_kept (c : ascii) :
  is_letter c = false -> PyStr.to_upper c = c /\ PyStr.to_lower c = c.
Proof.
  destruct c as [[] [] [] [] [] [] [] []]; intros H; try discriminate H;
    split; reflexivity.
Qed.

Lemma get_title_from (s : string) :
  forall (previous_is_cased : bool) (i : nat) (c : ascii),
  get i s = Some c ->
  get i (PyStr.title_from previous_is_cased s) =
  Some (if match i with
           | O => previous_is_cased
           | S j => match get j s with Some p => is_letter p | None => false end
           end
        then PyStr.to_lower c else PyStr.to_upper c).
Proof.
  induction s as [| a s IH]; intros b i c Hget; [destruct i; discriminate |].
  destruct i as [| i]; simpl in Hget.
  - inversion Hget; subst. reflexivity.
  - cbn [PyStr.title_from get]. rewrite (IH _ _ _ Hget).
    destruct i as [| i]; reflexivity.
Qed.

Lemma title_is_title_cased (s : string) : title_cased s (PyStr.title s).
Proof.
  split.
  - unfold PyStr.title. generalize false.
    induction s as [| c s IH]; intros b; simpl; [reflexivity | now rewrite IH].
  - intros i c Hget. unfold PyStr.title. rewrite (get_title_from _ _ _ _ Hget).
    eexists. split; [reflexivity |].
    change (match i with
            | O => false
            | S j => match get j s with Some p => is_letter p | None => false end
            end) with (after_letter s i).
    split; [| split].
    + intros Hc. destruct (no_letter_kept c Hc) as [Hu Hl].
      destruct (after_letter s i); congruence.
    + intros Hc Hbegin. rewrite Hbegin. now apply to_upper_capital.
    + intros Hc Hinside. rewrite Hinside. now apply to_lower_small.
Qed.

(** The name shown for [<stem>.py], for a stem of ASCII characters. *)
Lemma shown_name_of_stem (w : World) (directory stem : string) :
  stem <> ""%string ->
  PyStr.is_ascii stem = true ->
  extract_name_from_path w (mkFilePath directory (stem ++ ".py"))
    = PyStr.title (PyStr.replace "_" " " stem) /\
  shown_name_of stem (extract_name_from_path w (mkFilePath directory (stem ++ ".py"))).
Proof.
  intros Hstem Hascii.
  assert (Hname : extract_name_from_path w (mkFilePath directory (stem ++ ".py"))
                  = PyStr.title (PyStr.replace "_" " " stem)).
  { unfold extract_name_from_path, py_title. simpl fp_name.
    rewrite stem_of_python_file by assumption.
    now rewrite is_ascii_replace, Hascii. }
  split; [exact Hname |]. rewrite Hname.
  exists (PyStr.replace "_" " " stem).
  split; [apply replace_underscores | apply title_is_title_cased].
Qed.




(** C7.  In dry-run mode the reconciliation of a record returns [True]
    (created) without a call to the tracker: the state is unchanged, no
    listing and no creation was made.  So the reconciliation of any list
    leaves the state as it was, and after a [run] in dry-run mode the open
    issues of the tracker, and the numbers of listings and creations, are
    those from before the run. *)
Theorem dry_run_leaves_tracker_alone (w : World) (self : Checker) :
  dry_run self = true ->
  (forall (r : FileInfo) (s : State),
      create_github_issue w self r s = (Ok true, s)) /\
  (forall (files : list FileInfo) (s : State),
      process_outdated_files w self files s
      = (Ok (mkStats (List.length files) 0 0), s)) /\
  (forall (s s' : State) (result : RunResult),
      run w self s = (Ok result, s') ->
      open_issues s' = open_issues s /\
      next_number s' = next_number s /\
      search_calls s' = search_calls s /\
      create_calls s' = create_calls s).
Proof.
  intros Hdry. split; [| split].
  - intros r s. now apply create_github_issue_dry.
  - intros files s. unfold process_outdated_files.
    rewrite process_loop_dry by assumption. simpl. now rewrite Nat.add_0_r.
  - intros s s' result Hrun. rewrite run_unfold in Hrun.
    destruct (check_freshness w self s) as [[recs | e] s1] eqn:Hscan; [| discriminate].
    apply check_freshness_state in Hscan as (n & ->).
    unfold process_outdated_files in Hrun.
    rewrite process_loop_dry in Hrun by assumption.
    inversion Hrun; subst. repeat split.
Qed.

Lemma dry_run_leaves_tracker_alone_witness :
  open_issues (snd (run Examples.aruba_world Examples.dry_checker Examples.start_with_aruba))
    = open_issues Examples.start_with_aruba /\
  next_number (snd (run Examples.aruba_world Examples.dry_checker Examples.start_with_aruba))
    = next_number Examples.start_with_aruba /\
  search_calls (snd (run Examples.aruba_world Examples.dry_checker Examples.start_with_aruba))
    = search_calls Examples.start_with_aruba /\
  create_calls (snd (run Examples.aruba_world Examples.dry_checker Examples.start_with_aruba))
    = create_calls Examples.start_with_aruba.
Proof.
  apply (proj2 (proj2 (dry_run_leaves_tracker_alone Examples.aruba_world
                         Examples.dry_checker eq_refl))
           Examples.start_with_aruba _
           (mkRunResult [Examples.aruba_record] (mkStats 1 0 0) (Examples.today * 1000000))).
  reflexivity.
Defined.

(** C10.  The counter of skipped files is 0 in the result of every [run]
    that returns, and in the counters of every reconciliation: it is set to
    0 at the start and no path of the loop changes it, whatever the
    records, the tracker and the dry-run setting. *)
Theorem skipped_is_always_zero (w : World) (self : Checker) (s : State) :
  (forall (files : list FileInfo) (st : Stats) (s' : State),
      process_outdated_files w self files s = (Ok st, s') -> skipped st = 0%nat) /\
  (forall (result : RunResult) (s' : State),
      run w self s = (Ok result, s') -> skipped (stats result) = 0%nat).
Proof.
  split.
  - intros files st s' H. unfold process_outdated_files in H.
    destruct (process_loop_total w self files (mkStats 0 0 0) s)
      as (st0 & s0 & H0 & Hsk & _).
    rewrite H0 in H. inversion H; subst. exact Hsk.
  - intros result s' Hrun. rewrite run_unfold in Hrun.
    destruct (check_freshness w self s) as [[recs | e] s1]; [| discriminate].
    unfold process_outdated_files in Hrun.
    destruct (process_loop_total w self recs (mkStats 0 0 0) s1)
      as (st0 & s0 & H0 & Hsk & _).
    rewrite H0 in Hrun. inversion Hrun; subst. exact Hsk.
Qed.

Lemma skipped_is_always_zero_witness :
  skipped (stats (mkRunResult [Examples.aruba_record] (mkStats 1 0 0)
                    (Examples.today * 1000000))) = 0%nat.
Proof.
  apply (proj2 (skipped_is_always_zero Examples.aruba_world Examples.checker
                  Examples.start_with_aruba)
           _ (tick (searched (ticks 3 Examples.start_with_aruba)))).
  reflexivity.
Defined.

(* ===================================================================== *)
(** ** Further properties of the resolver and of the scan *)
(* ===================================================================== *)

Section ScanDetails.

Variable w : World.

(** The loop over the git commands never lets a [CalledProcessError] out:
    it is caught at every command. *)
Lemma try_git_commands_no_CalledProcessError (path : string) (cmds : list log_query) :
  forall result, try_git_commands w path cmds result <> Raise CalledProcessError.
Proof.
  induction cmds as [| q cmds IH]; intros result; simpl; [discriminate |].
  unfold run_git_log.
  destruct (git_log w q path) as [rc out |]; [| discriminate].
  destruct (rc =? 0); [| apply IH].
  destruct (nonblank out); [discriminate | apply IH].
Qed.

(** The only exception of the loop is the [OSError] of a git that cannot be
    started. *)
Lemma try_git_commands_raises_OSError (path : string) (cmds : list log_query) :
  forall result e, try_git_commands w path cmds result = Raise e -> e = OSError.
Proof.
  induction cmds as [| q cmds IH]; intros result e; simpl; [discriminate |].
  unfold run_git_log.
  destruct (git_log w q path) as [rc out |]; [| now intros [= <-]].
  destruct (rc =? 0); [| apply IH].
  destruct (nonblank out); [discriminate | apply IH].
Qed.

Lemma last_commit_timestamp_raises (path : string) (e : exn) :
  last_commit_timestamp w path = Raise e ->
  e = RuntimeError GitNotAccessible \/ e = RuntimeError (NoCommitHistory path) \/
  e = OSError \/ e = ValueError.
Proof.
  unfold last_commit_timestamp, check_git_status.
  destruct (git_status w) as [rc out |]; [| intros [= <-]; auto].
  destruct (rc =? 0); [| intros [= <-]; auto].
  destruct (try_git_commands w path git_commands None) as [[out' |] | e'] eqn:Hloop.
  - destruct (nonblank out'); [| intros [= <-]; auto].
    destruct out'; simpl; intros H; inversion H; auto.
  - intros [= <-]; auto.
  - apply try_git_commands_raises_OSError in Hloop as ->. intros [= <-]; auto.
Qed.

Lemma convert_timestamp_raises (ts : Z) (e : exn) :
  convert_timestamp w ts = Raise e ->
  e = OverflowError \/ e = ValueError \/ e = OSError.
Proof.
  unfold convert_timestamp. destruct (fromtimestamp w ts); intros [= <-]; auto.
Qed.

Lemma last_commit_date_raises (path : string) (e : exn) :
  last_commit_date w path = Raise e ->
  e = RuntimeError GitNotAccessible \/ e = RuntimeError (NoCommitHistory path) \/
  e = OSError \/ e = ValueError \/ e = OverflowError.
Proof.
  unfold last_commit_date.
  destruct (last_commit_timestamp w path) as [ts | e0] eqn:Hts.
  - intros H. apply convert_timestamp_raises in H as [-> | [-> | ->]]; auto.
  - intros [= <-]. apply last_commit_timestamp_raises in Hts as [-> | [-> | [-> | ->]]];
      auto.
Qed.

Lemma get_file_age_days_raises (f : FilePath) (s s' : State) (e : exn) :
  get_file_age_days w f s = (Raise e, s') ->
  e = RuntimeError GitNotAccessible \/
  e = RuntimeError (NoCommitHistory (relative_path f)) \/
  e = RuntimeError (FileAccessFailed (relative_path f)) \/
  e = ValueError \/
  e = OverflowError.
Proof.
  rewrite get_file_age_days_unfold.
  destruct (last_commit_date w (relative_path f)) as [ts | e0] eqn:Hts;
    [discriminate |].
  apply last_commit_date_raises in Hts as [-> | [-> | [-> | [-> | ->]]]];
    intros [= <- _]; auto 6.
Qed.

Lemma get_last_commit_date_ok (f : FilePath) (s s' : State) (lm : Z) :
  get_last_commit_date w f s = (Ok lm, s') ->
  exists ts : Z,
    run_git_log w LogPlain (relative_path f) = Ok (Decimal ts) /\
    fromtimestamp w ts = LocalTime lm.
Proof.
  unfold get_last_commit_date, try_excepts, bind, lift, raise.
  destruct (run_git_log w LogPlain (relative_path f)) as [out | []]; simpl;
    try discriminate.
  destruct out as [| ts |]; simpl; try discriminate.
  unfold convert_timestamp.
  destruct (fromtimestamp w ts) as [naive | | |] eqn:Htime; simpl; try discriminate.
  intros [= -> _]. eauto.
Qed.

Lemma get_last_commit_date_raises (f : FilePath) (s s' : State) (e : exn) :
  get_last_commit_date w f s = (Raise e, s') ->
  e = RuntimeError (NoCommitHistory (relative_path f)) \/
  e = RuntimeError (GitCommandFailed (relative_path f)) \/
  e = RuntimeError (FileAccessFailed (relative_path f)) \/
  e = ValueError \/
  e = OverflowError.
Proof.
  unfold get_last_commit_date, try_excepts, bind, lift, raise, run_git_log.
  destruct (git_log w LogPlain (relative_path f)) as [rc out |]; simpl.
  - destruct (rc =? 0); simpl; [| intros [= <- _]; auto].
    destruct out as [| ts |]; simpl; try (intros [= <- _]; auto).
    unfold convert_timestamp.
    destruct (fromtimestamp w ts); simpl; intros [= <- _]; auto 6.
  - intros [= <- _]; auto.
Qed.

Variable directory : string.
Variable threshold : Z.

(** Returning or raising, the loop of the scan changes nothing but the
    number of clock readings, by at most one per file. *)
Lemma scan_loop_frame (files : list FilePath) :
  forall (acc : list FileInfo) (s s' : State) (r : pyresult (list FileInfo)),
  scan_loop w directory threshold files acc s = (r, s') ->
  exists n : nat, (n <= List.length files)%nat /\ s' = ticks n s.
Proof.
  induction files as [| f rest IH]; intros acc s s' r H.
  - inversion H. exists 0%nat. split; [reflexivity | now rewrite ticks_0].
  - rewrite scan_loop_cons in H.
    destruct (get_file_age_days w f s) as [[A | e] s1] eqn:Hage.
    + apply get_file_age_days_ok in Hage as ->.
      assert (Hrest : forall acc', scan_loop w directory threshold rest acc' (tick s) = (r, s') ->
                                   exists n, (n <= List.length (f :: rest))%nat /\ s' = ticks n s).
      { intros acc' H'. apply IH in H' as (n & Hn & ->).
        exists (S n). split; [simpl; lia | apply ticks_tick]. }
      destruct (A >? threshold); [| eapply Hrest; eassumption].
      destruct (get_last_commit_date w f (tick s)) as [[lm | e] s2] eqn:Hlm;
        apply get_last_commit_date_state in Hlm as ->.
      * eapply Hrest; eassumption.
      * inversion H. exists 1%nat. split; [simpl; lia | reflexivity].
    + apply get_file_age_days_raise in Hage as [-> _]. inversion H.
      exists 0%nat. split; [lia | now rewrite ticks_0].
Qed.

(** The fields of the records the loop appends. *)
Lemma scan_loop_fields (files : list FilePath) :
  forall (acc recs : list FileInfo) (s s' : State),
  scan_loop w directory threshold files acc s = (Ok recs, s') ->
  exists new : list FileInfo,
    recs = (acc ++ new)%list /\
    Forall (fun r =>
              exists f : FilePath,
                In f files /\
                fi_path r = relative_path f /\
                fi_name r = extract_name_from_path w f /\
                fi_threshold_days r = threshold /\
                fi_directory_type r = path_name directory /\
                fi_age_days r > threshold /\
                exists ts : Z,
                  run_git_log w LogPlain (relative_path f) = Ok (Decimal ts) /\
                  fromtimestamp w ts = LocalTime (fi_last_modified r))
           new.
Proof.
  induction files as [| f rest IH]; intros acc recs s s' H.
  - inversion H. exists []. split; [now rewrite app_nil_r | constructor].
  - rewrite scan_loop_cons in H.
    destruct (get_file_age_days w f s) as [[A | e] s1]; [| discriminate].
    assert (Hweaken : forall new : list FileInfo,
               Forall (fun r => exists g, In g rest /\ fi_path r = relative_path g /\
                          fi_name r = extract_name_from_path w g /\
                          fi_threshold_days r = threshold /\
                          fi_directory_type r = path_name directory /\
                          fi_age_days r > threshold /\
                          exists ts : Z,
                            run_git_log w LogPlain (relative_path g) = Ok (Decimal ts) /\
                            fromtimestamp w ts = LocalTime (fi_last_modified r)) new ->
               Forall (fun r => exists g, In g (f :: rest) /\ fi_path r = relative_path g /\
                          fi_name r = extract_name_from_path w g /\
                          fi_threshold_days r = threshold /\
                          fi_directory_type r = path_name directory /\
                          fi_age_days r > threshold /\
                          exists ts : Z,
                            run_git_log w LogPlain (relative_path g) = Ok (Decimal ts) /\
                            fromtimestamp w ts = LocalTime (fi_last_modified r)) new).
    { intros new. apply Forall_impl. intros r (g & Hg & Hrest). exists g.
      split; [now right | exact Hrest]. }
    destruct (A >? threshold) eqn:Hcmp.
    + destruct (get_last_commit_date w f s1) as [[lm | e] s2] eqn:Hlm; [| discriminate].
      apply get_last_commit_date_ok in Hlm.
      apply IH in H as (new & -> & Hall).
      eexists (_ :: new). split; [now rewrite <- app_assoc |].
      constructor; [| now apply Hweaken].
      exists f. simpl. repeat split; try reflexivity; [now left | lia | exact Hlm].
    + apply IH in H as (new & -> & Hall).
      exists new. split; [reflexivity | now apply Hweaken].
Qed.

(** What makes a file eligible. *)
Lemma python_files_In (f : FilePath) :
  In f (python_files w directory) ->
  fp_directory f = directory /\
  In (fp_name f) (listdir w directory) /\
  PyStr.endswith ".py" (fp_name f) = true /\
  fp_name f <> "__init__.py"%string.
Proof.
  unfold python_files, glob_py. intros H.
  apply filter_In in H as [H Hinit].
  apply in_map_iff in H as (name & <- & H).
  apply filter_In in H as [Hin Hpy]. simpl in *.
  repeat split; try assumption.
  intros ->. discriminate Hinit.
Qed.

End ScanDetails.

(** A day in microseconds divides the elapsed time of a whole number of
    days exactly; half a day more is a tie. *)
Lemma round_half_even_days (n r : Z) :
  0 <= r < 86400 * 1000000 ->
  round_half_even (n * (86400 * 1000000) + r) (86400 * 1000000) =
  if 2 * r <? 86400 * 1000000 then n
  else if 86400 * 1000000 <? 2 * r then n + 1
  else if Z.even n then n else n + 1.
Proof.
  intros Hr. unfold round_half_even.
  assert (Hq : (n * (86400 * 1000000) + r) / (86400 * 1000000) = n).
  { rewrite Z.add_comm, Z.div_add by lia. rewrite Z.div_small by lia. lia. }
  assert (Hm : (n * (86400 * 1000000) + r) mod (86400 * 1000000) = r).
  { rewrite Z.add_comm, Z.mod_add by lia. now apply Z.mod_small. }
  now rewrite Hq, Hm.
Qed.

(** X1.  A directory that does not exist is not an error: the scan returns
    the empty list without a call to git or to the clock, and [run]
    returns a result with no outdated file and all counters at 0. *)
Theorem missing_directory_is_not_an_error (w : World) (self : Checker) (s : State) :
  dir_exists w (files_path self) = false ->
  scan_directory w (files_path self) (threshold_days self) s = (Ok [], s) /\
  run w self s
    = (Ok (mkRunResult [] (mkStats 0 0 0) (clock w (clock_reads s))), tick s).
Proof.
  intros Hdir.
  assert (Hscan : scan_directory w (files_path self) (threshold_days self) s = (Ok [], s)).
  { unfold scan_directory. now rewrite Hdir. }
  split; [exact Hscan |].
  rewrite run_unfold. unfold check_freshness. rewrite Hscan. reflexivity.
Qed.

Lemma missing_directory_is_not_an_error_witness :
  scan_directory Examples.aruba_world "holidays/financial" 180 Examples.start
    = (Ok [], Examples.start) /\
  run Examples.aruba_world HostExamples.elsewhere_checker Examples.start
    = (Ok (mkRunResult [] (mkStats 0 0 0)
             (clock Examples.aruba_world (clock_reads Examples.start))),
       tick Examples.start).
Proof.
  apply (missing_directory_is_not_an_error Examples.aruba_world
           HostExamples.elsewhere_checker Examples.start).
  reflexivity.
Defined.

(** X2.  For a directory written as pathlib keeps it ([normal_directory]),
    every record of a scan is the record of an entry of the directory
    listing whose name ends in [.py] and is not [__init__.py]; its path is
    the directory, a slash and that name. *)
Theorem scan_takes_only_eligible_files (w : World) (directory : string) (threshold : Z)
    (s s' : State) (recs : list FileInfo) :
  normal_directory directory = true ->
  scan_directory w directory threshold s = (Ok recs, s') ->
  Forall (fun r =>
            exists name : string,
              In name (listdir w directory) /\
              PyStr.endswith ".py" name = true /\
              name <> "__init__.py"%string /\
              fi_path r = (directory ++ "/" ++ name)%string)
         recs.
Proof.
  intros _. unfold scan_directory. destruct (negb (dir_exists w directory)).
  - intros H; inversion H. constructor.
  - intros H. apply scan_loop_fields in H as (new & -> & Hall). simpl.
    eapply Forall_impl; [| exact Hall].
    intros r (f & Hin & Hpath & _).
    apply python_files_In in Hin as (Hdir & Hls & Hpy & Hinit).
    exists (fp_name f). repeat split; try assumption.
    rewrite Hpath. unfold relative_path. now rewrite Hdir.
Qed.

Lemma scan_takes_only_eligible_files_witness :
  Forall (fun r =>
            exists name : string,
              In name (listdir Examples.aruba_world "holidays/countries") /\
              PyStr.endswith ".py" name = true /\
              name <> "__init__.py"%string /\
              fi_path r = ("holidays/countries" ++ "/" ++ name)%string)
         [Examples.aruba_record].
Proof.
  apply (scan_takes_only_eligible_files Examples.aruba_world "holidays/countries" 180
           Examples.start (ticks 3 Examples.start)).
  - reflexivity.
  - reflexivity.
Defined.

(** X3.  For a directory written as pathlib keeps it ([normal_directory]),
    every record of a scan carries the threshold of the scan, the last
    component of the directory as its type, an age at least one day above
    the threshold (so the overdue days shown in the issue are at least 1),
    and as last modification the local time that [datetime.fromtimestamp]
    gives for the commit time the plain [git log] query prints for its
    path. *)
Theorem scan_record_fields (w : World) (directory : string) (threshold : Z)
    (s s' : State) (recs : list FileInfo) :
  normal_directory directory = true ->
  scan_directory w directory threshold s = (Ok recs, s') ->
  Forall (fun r =>
            fi_threshold_days r = threshold /\
            fi_directory_type r = path_name directory /\
            fi_age_days r - fi_threshold_days r >= 1 /\
            exists ts : Z,
              run_git_log w LogPlain (fi_path r) = Ok (Decimal ts) /\
              fromtimestamp w ts = LocalTime (fi_last_modified r))
         recs.
Proof.
  intros _. unfold scan_directory. destruct (negb (dir_exists w directory)).
  - intros H; inversion H. constructor.
  - intros H. apply scan_loop_fields in H as (new & -> & Hall). simpl.
    eapply Forall_impl; [| exact Hall].
    intros r (f & _ & Hpath & _ & Hthr & Htype & Hage & Hlm).
    rewrite Hpath. repeat split; try assumption. lia.
Qed.

Lemma scan_record_fields_witness :
  Forall (fun r =>
            fi_threshold_days r = 180 /\
            fi_directory_type r = path_name "holidays/countries" /\
            fi_age_days r - fi_threshold_days r >= 1 /\
            exists ts : Z,
              run_git_log (HostExamples.summer_world Examples.history) LogPlain (fi_path r)
                = Ok (Decimal ts) /\
              fromtimestamp (HostExamples.summer_world Examples.history) ts
                = LocalTime (fi_last_modified r))
         [mkFileInfo "holidays/countries/aruba.py" "Aruba" 200
            (Examples.today - 200 * Examples.day + 7200) 180 "countries";
          mkFileInfo "holidays/countries/chile.py" "Chile" 365
            (Examples.today - 365 * Examples.day + 7200) 180 "countries"].
Proof.
  apply (scan_record_fields (HostExamples.summer_world Examples.history)
           "holidays/countries" 180 Examples.start (ticks 2 Examples.start)).
  - reflexivity.
  - reflexivity.
Defined.

(** X4.  Whether it returns or raises, a scan leaves the tracker alone: the
    open issues, the issue numbers and the numbers of API calls are
    unchanged; it reads the clock at most once per eligible file. *)
Theorem scan_touches_only_the_clock (w : World) (directory : string) (threshold : Z)
    (s s' : State) (r : pyresult (list FileInfo)) :
  scan_directory w directory threshold s = (r, s') ->
  open_issues s' = open_issues s /\
  next_number s' = next_number s /\
  search_calls s' = search_calls s /\
  create_calls s' = create_calls s /\
  (clock_reads s <= clock_reads s'
   <= clock_reads s + List.length (python_files w directory))%nat.
Proof.
  unfold scan_directory. destruct (negb (dir_exists w directory)).
  - intros H; inversion H; subst. repeat split; lia.
  - intros H. apply scan_loop_frame in H as (n & Hn & ->). simpl.
    repeat split; lia.
Qed.

Lemma scan_touches_only_the_clock_witness :
  open_issues (tick Examples.start_with_aruba) = open_issues Examples.start_with_aruba /\
  next_number (tick Examples.start_with_aruba) = next_number Examples.start_with_aruba /\
  search_calls (tick Examples.start_with_aruba) = search_calls Examples.start_with_aruba /\
  create_calls (tick Examples.start_with_aruba) = create_calls Examples.start_with_aruba /\
  (clock_reads Examples.start_with_aruba <= clock_reads (tick Examples.start_with_aruba)
   <= clock_reads Examples.start_with_aruba
      + List.length (python_files Examples.untracked_world "holidays/countries"))%nat.
Proof.
  apply (scan_touches_only_the_clock Examples.untracked_world "holidays/countries" 180
           Examples.start_with_aruba (tick Examples.start_with_aruba)
           (Raise (RuntimeError (NoCommitHistory "holidays/countries/south_africa.py")))).
  reflexivity.
Defined.

(** X5.  The two functions that ask git raise nothing but [RuntimeError],
    [ValueError] (of [int()], or of [datetime.fromtimestamp] for a year
    outside 1..9999) and the [OverflowError] of [datetime.fromtimestamp]:
    [get_file_age_days] raises "not accessible", "no commit history" or
    "failed to access" (its clause for [CalledProcessError] is never
    reached, the loop over the commands catches that exception itself),
    [get_last_commit_date] raises "no commit history", "failed to get git
    commit date" or "failed to access".  An [OSError] of
    [datetime.fromtimestamp] is turned into "failed to access" like the
    one of a git that cannot be started. *)
Theorem resolver_exceptions (w : World) (f : FilePath) (s s' : State) (e : exn) :
  (get_file_age_days w f s = (Raise e, s') ->
   e = RuntimeError GitNotAccessible \/
   e = RuntimeError (NoCommitHistory (relative_path f)) \/
   e = RuntimeError (FileAccessFailed (relative_path f)) \/
   e = ValueError \/
   e = OverflowError) /\
  (get_last_commit_date w f s = (Raise e, s') ->
   e = RuntimeError (NoCommitHistory (relative_path f)) \/
   e = RuntimeError (GitCommandFailed (relative_path f)) \/
   e = RuntimeError (FileAccessFailed (relative_path f)) \/
   e = ValueError \/
   e = OverflowError).
Proof.
  split; [apply get_file_age_days_raises | apply get_last_commit_date_raises].
Qed.

Lemma resolver_exceptions_witness :
  OverflowError = RuntimeError GitNotAccessible \/
  OverflowError = RuntimeError (NoCommitHistory (relative_path Examples.aruba_file)) \/
  OverflowError = RuntimeError (FileAccessFailed (relative_path Examples.aruba_file)) \/
  OverflowError = ValueError \/
  OverflowError = OverflowError.
Proof.
  apply (proj1 (resolver_exceptions (HostExamples.summer_world HostExamples.strange_times)
                  Examples.aruba_file Examples.start Examples.start OverflowError)).
  reflexivity.
Defined.

Lemma scan_loop_raises (w : World) (directory : string) (threshold : Z)
    (files : list FilePath) :
  forall (acc : list FileInfo) (s s' : State) (e : exn),
  scan_loop w directory threshold files acc s = (Raise e, s') -> scan_error e.
Proof.
  induction files as [| f rest IH]; intros acc s s' e H; [discriminate |].
  rewrite scan_loop_cons in H.
  destruct (get_file_age_days w f s) as [[A | e0] s1] eqn:Hage.
  - destruct (A >? threshold); [| eapply IH; eassumption].
    destruct (get_last_commit_date w f s1) as [[lm | e0] s2] eqn:Hlm;
      [eapply IH; eassumption |].
    inversion H; subst e0.
    apply get_last_commit_date_raises in Hlm as [-> | [-> | [-> | [-> | ->]]]];
      unfold scan_error; eauto.
  - inversion H; subst e0.
    apply get_file_age_days_raises in Hage as [-> | [-> | [-> | [-> | ->]]]];
      unfold scan_error; eauto.
Qed.

(** X6.  When [run] raises, the exception is one of the scan (a
    [RuntimeError], a [ValueError] or an [OverflowError]), and no issue
    was listed or created: the open issues and the numbers of calls of
    [get_issues] and [create_issue] are those from before. *)
Theorem failed_run_leaves_tracker_alone (w : World) (self : Checker) (s s' : State)
    (e : exn) :
  run w self s = (Raise e, s') ->
  ((exists why : runtime_reason, e = RuntimeError why) \/
   e = ValueError \/ e = OverflowError) /\
  open_issues s' = open_issues s /\
  search_calls s' = search_calls s /\
  create_calls s' = create_calls s.
Proof.
  rewrite run_unfold. unfold check_freshness.
  destruct (scan_directory w (files_path self) (threshold_days self) s)
    as [[recs | e0] s1] eqn:Hscan.
  - unfold process_outdated_files.
    destruct (process_loop_total w self recs (mkStats 0 0 0) s1) as (st & s2 & -> & _).
    discriminate.
  - intros [= <- <-].
    unfold scan_directory in Hscan.
    destruct (negb (dir_exists w (files_path self))); [discriminate |].
    split; [eapply scan_loop_raises; eassumption |].
    apply scan_loop_frame in Hscan as (n & _ & ->). now repeat split.
Qed.

Lemma failed_run_leaves_tracker_alone_witness :
  ((exists why : runtime_reason, OverflowError = RuntimeError why) \/
   OverflowError = ValueError \/ OverflowError = OverflowError) /\
  open_issues Examples.start_with_aruba = open_issues Examples.start_with_aruba /\
  search_calls Examples.start_with_aruba = search_calls Examples.start_with_aruba /\
  create_calls Examples.start_with_aruba = create_calls Examples.start_with_aruba.
Proof.
  apply (failed_run_leaves_tracker_alone
           (HostExamples.summer_world HostExamples.strange_times)
           Examples.checker Examples.start_with_aruba Examples.start_with_aruba
           OverflowError).
  reflexivity.
Defined.

(** X7.  The scan asks git twice about an outdated file, and the second
    question is the plain query only.  A file whose age was resolved (by
    the rename-following query or by the one over all refs) and is above
    the threshold, but for which the plain query prints nothing, makes the
    scan raise "no commit history" instead of giving a record. *)
Theorem scan_needs_the_plain_query (w : World) (directory : string) (threshold : Z)
    (before after : list FilePath) (f : FilePath) (gathered : list FileInfo)
    (s s1 s2 : State) (A : Z) :
  dir_exists w directory = true ->
  python_files w directory = (before ++ f :: after)%list ->
  scan_loop w directory threshold before [] s = (Ok gathered, s1) ->
  get_file_age_days w f s1 = (Ok A, s2) ->
  A > threshold ->
  git_log w LogPlain (relative_path f) = Exited 0 Blank ->
  scan_directory w directory threshold s
    = (Raise (RuntimeError (NoCommitHistory (relative_path f))), s2).
Proof.
  intros Hdir Hfiles Hbefore Hage Hgt Hplain.
  unfold scan_directory. rewrite Hdir, Hfiles. cbn [negb].
  rewrite scan_loop_app, Hbefore, scan_loop_cons, Hage.
  replace (A >? threshold) with true by (symmetry; apply Z.gtb_lt; lia).
  unfold get_last_commit_date, try_excepts, bind, lift, run_git_log.
  rewrite Hplain. reflexivity.
Qed.

Lemma scan_needs_the_plain_query_witness :
  scan_directory HostExamples.renamed_world "holidays/countries" 180 Examples.start
    = (Raise (RuntimeError (NoCommitHistory (relative_path Examples.aruba_file))),
       tick Examples.start).
Proof.
  apply (scan_needs_the_plain_query HostExamples.renamed_world "holidays/countries" 180
           [] [] Examples.aruba_file [] Examples.start Examples.start
           (tick Examples.start) 200).
  - reflexivity.
  - reflexivity.
  - reflexivity.
  - reflexivity.
  - lia.
  - reflexivity.
Defined.

(** X8.  Ages are whole days between two naive local datetimes (the clock
    reading of [datetime.now()] and what [datetime.fromtimestamp] gives for
    the commit time), rounded to the nearest day with ties to the even day.
    For a number of days [n] of at most 46295 in absolute value: a file
    whose commit datetime lies exactly [n] days before the clock reading
    has age [n]; one whose commit datetime lies [n] days and 12 hours
    before has age [n] when [n] is even and [n + 1] when [n] is odd.  So,
    with a threshold of 180 days, 180 days and 12 hours are not outdated,
    while 181 days and 12 hours count as 182. *)
Theorem age_of_whole_days_and_ties (w : World) (f : FilePath) (s : State) (date n : Z) :
  last_commit_date w (relative_path f) = Ok date ->
  Z.abs n <= 46295 ->
  (clock w (clock_reads s) = (date + n * 86400) * 1000000 ->
   get_file_age_days w f s = (Ok n, tick s)) /\
  (clock w (clock_reads s) = (date + n * 86400 + 43200) * 1000000 ->
   get_file_age_days w f s = (Ok (if Z.even n then n else n + 1), tick s)).
Proof.
  intros Hdate Hn. rewrite get_file_age_days_unfold, Hdate. split; intros ->.
  - replace ((date + n * 86400) * 1000000 - date * 1000000)
      with (n * (86400 * 1000000) + 0) by ring.
    unfold round_days.
    replace (Z.abs (n * (86400 * 1000000) + 0) <=? 4000000000000000) with true
      by (symmetry; apply Z.leb_le; lia).
    rewrite round_half_even_days by lia. reflexivity.
  - replace ((date + n * 86400 + 43200) * 1000000 - date * 1000000)
      with (n * (86400 * 1000000) + 43200000000) by ring.
    unfold round_days.
    replace (Z.abs (n * (86400 * 1000000) + 43200000000) <=? 4000000000000000) with true
      by (symmetry; apply Z.leb_le; lia).
    rewrite round_half_even_days by lia. reflexivity.
Qed.

Lemma age_of_whole_days_and_ties_witness :
  get_file_age_days Examples.aruba_world Examples.aruba_file Examples.start
  = (Ok 200, tick Examples.start).
Proof.
  assert (Hdate : last_commit_date Examples.aruba_world (relative_path Examples.aruba_file)
                  = Ok (Examples.today - 200 * Examples.day)) by reflexivity.
  assert (Hdays : Z.abs 200 <= 46295) by lia.
  apply (proj1 (age_of_whole_days_and_ties Examples.aruba_world Examples.aruba_file
                  Examples.start (Examples.today - 200 * Examples.day) 200 Hdate Hdays)).
  reflexivity.
Defined.

(** X9.  When [git status] exits with a status other than 0, the age of no
    file is resolved: [get_file_age_days] raises "Git repository not
    accessible" without a [git log] query, and the scan of a directory
    with an eligible file raises it at the first file.  A directory without
    eligible files is scanned without any call to git: the result is the
    empty list whatever the state of the repository. *)
Theorem inaccessible_repository (w : World) (rc : Z) (out : cmd_output) :
  git_status w = Exited rc out ->
  rc <> 0 ->
  (forall (f : FilePath) (s : State),
      get_file_age_days w f s = (Raise (RuntimeError GitNotAccessible), s)) /\
  (forall (directory : string) (threshold : Z) (s : State),
      dir_exists w directory = true ->
      python_files w directory <> [] ->
      scan_directory w directory threshold s
      = (Raise (RuntimeError GitNotAccessible), s)) /\
  (forall (directory : string) (threshold : Z) (s : State),
      python_files w directory = [] ->
      scan_directory w directory threshold s = (Ok [], s)).
Proof.
  intros Hstatus Hrc.
  assert (Hage : forall f s,
             get_file_age_days w f s = (Raise (RuntimeError GitNotAccessible), s)).
  { intros f s. rewrite get_file_age_days_unfold.
    unfold last_commit_date, last_commit_timestamp, check_git_status. rewrite Hstatus.
    apply Z.eqb_neq in Hrc. now rewrite Hrc. }
  split; [exact Hage |]. split.
  - intros directory threshold s Hdir Hfiles. unfold scan_directory. rewrite Hdir.
    cbn [negb]. destruct (python_files w directory) as [| f rest]; [congruence |].
    now rewrite scan_loop_cons, Hage.
  - intros directory threshold s Hfiles. unfold scan_directory. rewrite Hfiles.
    now destruct (negb (dir_exists w directory)).
Qed.

Lemma inaccessible_repository_witness :
  scan_directory HostExamples.no_repository_world "holidays/countries" 180 Examples.start
    = (Raise (RuntimeError GitNotAccessible), Examples.start).
Proof.
  apply (proj1 (proj2 (inaccessible_repository HostExamples.no_repository_world 128 Blank
                         eq_refl ltac:(discriminate)))).
  - reflexivity.
  - simpl. discriminate.
Defined.

(* ===================================================================== *)
(** ** Further properties of the reconciliation *)
(* ===================================================================== *)

Section ReconcilerDetails.

Variable w : World.
Variable self : Checker.

(** The loop over the listed issues is a search for the first issue of the
    title; the exception that ends the listing is met only if none of the
    issues listed before has the title. *)
Lemma find_title_find (title : string) (issues : list Issue) (fault : option exn) :
  find_title title issues fault =
  match find (has_title title) issues with
  | Some issue => Ok (Some issue)
  | None => match fault with Some e => Raise e | None => Ok None end
  end.
Proof.
  induction issues as [| issue rest IH]; simpl; [reflexivity |].
  unfold has_title at 1. now destruct (String.eqb (issue_title issue) title).
Qed.

Lemma existsb_has_title (title : string) (issues : list Issue) :
  existsb (has_title title) issues = true <-> In title (map issue_title issues).
Proof.
  rewrite existsb_exists, in_map_iff. unfold has_title.
  split; intros (issue & H1 & H2).
  - exists issue. split; [now apply String.eqb_eq | assumption].
  - exists issue. split; [assumption | now apply String.eqb_eq].
Qed.

(** What [find_existing_issue] can answer and what it does to the state. *)
Lemma find_existing_issue_cases (r : FileInfo) (s s' : State)
    (res : pyresult (option Issue)) :
  find_existing_issue w self r s = (res, s') ->
  (repo self = false /\ res = Ok None /\ s' = s) \/
  (repo self = true /\ s' = searched s /\
   exists (shown : list Issue) (fault : option exn),
     (search_fault w (search_calls s) = None /\ shown = open_issues s /\ fault = None \/
      exists k e, search_fault w (search_calls s) = Some (k, e) /\
                  shown = firstn k (open_issues s) /\ fault = Some e) /\
     match find (has_title (create_issue_title r)) shown with
     | Some issue => res = Ok (Some issue)
     | None =>
         match fault with
         | None => res = Ok None
         | Some GithubException => res = Ok None
         | Some e => res = Raise e
         end
     end).
Proof.
  unfold find_existing_issue. destruct (repo self); cbn [negb].
  - unfold try_excepts, bind, get_issues, lift. intros H. right.
    split; [reflexivity |].
    destruct (search_fault w (search_calls s)) as [[k e] |] eqn:Hfault; simpl in H;
      rewrite find_title_find in H.
    + assert (s' = searched s /\
              match find (has_title (create_issue_title r)) (firstn k (open_issues s)) with
              | Some issue => res = Ok (Some issue)
              | None => match e with GithubException => res = Ok None | _ => res = Raise e end
              end) as [-> Hres].
      { destruct (find (has_title (create_issue_title r)) (firstn k (open_issues s))).
        - inversion H; auto.
        - destruct e; inversion H; auto. }
      split; [reflexivity |]. exists (firstn k (open_issues s)), (Some e).
      split; [right; eauto |].
      destruct (find _ _); [exact Hres | destruct e; exact Hres].
    + assert (s' = searched s /\
              match find (has_title (create_issue_title r)) (open_issues s) with
              | Some issue => res = Ok (Some issue)
              | None => res = Ok None
              end) as [-> Hres].
      { destruct (find (has_title (create_issue_title r)) (open_issues s));
          inversion H; auto. }
      split; [reflexivity |]. exists (open_issues s), None.
      split; [left; auto | exact Hres].
  - intros H. inversion H. left. auto.
Qed.

Lemma find_existing_issue_state (r : FileInfo) (s s' : State)
    (res : pyresult (option Issue)) :
  find_existing_issue w self r s = (res, s') -> s' = s \/ s' = searched s.
Proof.
  intros H. apply find_existing_issue_cases in H as [(_ & _ & ->) | (_ & -> & _)]; auto.
Qed.

(** What one reconciliation does to the state: nothing, one listing, one
    listing and a creation that raised, or one listing and a creation that
    opened an issue with the record's title and the three labels. *)
Lemma create_github_issue_cases (r : FileInfo) (s s' : State) (res : pyresult bool) :
  create_github_issue w self r s = (res, s') ->
  s' = s \/
  s' = searched s \/
  (s' = create_failed (searched s) /\ res <> Ok true) \/
  (exists body : string,
      res = Ok true /\
      existsb (has_title (create_issue_title r))
              (match search_fault w (search_calls s) with
               | None => open_issues s
               | Some (k, _) => firstn k (open_issues s)
               end) = false /\
      s' = issue_opened (mkIssue (next_number s) (create_issue_title r) body fixed_labels)
                        (searched s)).
Proof.
  destruct (dry_run self) eqn:Hdry.
  - rewrite create_github_issue_dry by assumption. intros [= _ <-]. auto.
  - destruct (repo self) eqn:Hrepo.
    + rewrite create_github_issue_live by assumption.
      destruct (find_existing_issue w self r s) as [found s1] eqn:Hfind.
      apply find_existing_issue_cases in Hfind
        as [(Hno & _) | (_ & -> & shown & fault & Hshown & Hfound)]; [congruence |].
      destruct found as [[issue |] | e]; try (intros [= _ <-]; auto).
      assert (Habsent : existsb (has_title (create_issue_title r))
                          (match search_fault w (search_calls s) with
                           | None => open_issues s
                           | Some (k, _) => firstn k (open_issues s)
                           end) = false).
      { assert (Hnone : find (has_title (create_issue_title r)) shown = None).
        { destruct (find (has_title (create_issue_title r)) shown); [discriminate |].
          reflexivity. }
        assert (Hex : existsb (has_title (create_issue_title r)) shown = false).
        { apply not_true_is_false. intros Hex. apply existsb_exists in Hex as (i & Hi & Ht).
          apply (find_none _ _ Hnone) in Hi. congruence. }
        destruct Hshown as [(-> & -> & _) | (k & e & -> & -> & _)]; exact Hex. }
      destruct (create_issue_body w r) as [body | e]; [| destruct e; intros [= _ <-]; auto].
      change (create_calls (searched s)) with (create_calls s).
      destruct (create_fault w (create_calls s)) as [e |].
      * destruct e; intros [= <- <-]; right; right; left; split;
          (reflexivity || discriminate).
      * intros [= <- <-]. right. right. right. exists body. auto.
    + unfold create_github_issue. rewrite Hdry, Hrepo. intros [= _ <-]. auto.
Qed.

End ReconcilerDetails.

Section ReconcilerInvariants.

Variable w : World.
Variable self : Checker.

Lemma In_firstn {A : Type} (k : nat) (l : list A) (x : A) : In x (firstn k l) -> In x l.
Proof.
  intros H. rewrite <- (firstn_skipn k l). apply in_or_app. now left.
Qed.

(** A reconciliation that answers [True] outside dry-run mode leaves an
    issue of the record's title open. *)
Lemma create_github_issue_true_live (r : FileInfo) (s s' : State) :
  dry_run self = false ->
  create_github_issue w self r s = (Ok true, s') ->
  In (create_issue_title r) (open_titles s').
Proof.
  intros Hdry. destruct (repo self) eqn:Hrepo.
  - rewrite create_github_issue_live by assumption.
    destruct (find_existing_issue w self r s) as [found s1] eqn:Hfind.
    apply find_existing_issue_cases in Hfind
      as [(Hno & _) | (_ & -> & shown & fault & Hshown & Hfound)]; [congruence |].
    destruct (find (has_title (create_issue_title r)) shown) as [issue |] eqn:Hf.
    + subst found. intros [= <-]. apply find_some in Hf as [Hin Ht].
      unfold open_titles. apply in_map_iff. exists issue.
      split; [now apply String.eqb_eq |].
      destruct Hshown as [(_ & -> & _) | (k & e & _ & -> & _)];
        [exact Hin | eapply In_firstn, Hin].
    + assert (Hnone : found = Ok None \/ exists e, found = Raise e).
      { destruct fault as [[] |]; eauto. }
      destruct Hnone as [-> | (e & ->)]; [| discriminate].
      destruct (create_issue_body w r) as [body | []]; try discriminate.
      change (create_calls (searched s)) with (create_calls s).
      destruct (create_fault w (create_calls s)) as [[] |]; try discriminate.
      intros [= <-]. left. reflexivity.
  - unfold create_github_issue. rewrite Hdry, Hrepo. discriminate.
Qed.

(** What the loop of [process_outdated_files] does to the state. *)
Lemma process_loop_effects (files : list FileInfo) :
  forall (st st' : Stats) (s s' : State),
  process_loop w self files st s = (Ok st', s') ->
  exists added : list Issue,
    open_issues s' = (added ++ open_issues s)%list /\
    Forall (fun i => issue_labels i = fixed_labels /\
                     exists r, In r files /\ issue_title i = create_issue_title r) added /\
    (created st + List.length added <= created st')%nat /\
    (errors st <= errors st')%nat /\
    clock_reads s' = clock_reads s /\
    next_number s' = next_number s + Z.of_nat (List.length added) /\
    (search_calls s <= search_calls s' <= search_calls s + List.length files)%nat /\
    (create_calls s <= create_calls s')%nat /\
    (create_calls s' - create_calls s <= search_calls s' - search_calls s)%nat.
Proof.
  induction files as [| r rest IH]; intros st st' s s' H.
  - inversion H; subst. exists []. simpl. repeat split; try lia. constructor.
  - rewrite process_loop_cons in H.
    destruct (create_github_issue w self r s) as [res s1] eqn:Hstep.
    assert (Hweaken : forall added : list Issue,
               Forall (fun i => issue_labels i = fixed_labels /\
                          exists r0, In r0 rest /\ issue_title i = create_issue_title r0) added ->
               Forall (fun i => issue_labels i = fixed_labels /\
                          exists r0, In r0 (r :: rest) /\ issue_title i = create_issue_title r0)
                      added).
    { intros added. apply Forall_impl. intros i (Hl & r0 & Hr0 & Ht).
      split; [exact Hl |]. exists r0. split; [now right | exact Ht]. }
    apply create_github_issue_cases in Hstep
      as [-> | [-> | [(-> & Hres) | (body & -> & _ & ->)]]].
    + destruct res as [[] | e]; apply IH in H as (added & Ho & Hall & Hc & He & Hk & Hn & Hs & Hcr & Hd);
        exists added; simpl in *; repeat split; try assumption; try lia; now apply Hweaken.
    + destruct res as [[] | e]; apply IH in H as (added & Ho & Hall & Hc & He & Hk & Hn & Hs & Hcr & Hd);
        exists added; simpl in *; repeat split; try assumption; try lia; now apply Hweaken.
    + destruct res as [[] | e]; [congruence | |];
        apply IH in H as (added & Ho & Hall & Hc & He & Hk & Hn & Hs & Hcr & Hd);
        exists added; simpl in *; repeat split; try assumption; try lia; now apply Hweaken.
    + apply IH in H as (added & Ho & Hall & Hc & He & Hk & Hn & Hs & Hcr & Hd).
      exists (added ++ [mkIssue (next_number s) (create_issue_title r) body fixed_labels])%list.
      simpl in *. rewrite length_app. simpl.
      repeat split; try lia.
      * now rewrite Ho, <- app_assoc.
      * apply Forall_app. split; [now apply Hweaken |].
        constructor; [| constructor]. simpl. split; [reflexivity |].
        exists r. split; [now left | reflexivity].
Qed.

(** With a listing that never fails, the loop keeps the titles of the open
    issues distinct. *)
Lemma process_loop_distinct_titles (files : list FileInfo) :
  (forall n, search_fault w n = None) ->
  forall (st st' : Stats) (s s' : State),
  process_loop w self files st s = (Ok st', s') ->
  NoDup (open_titles s) -> NoDup (open_titles s').
Proof.
  intros Hsearch. induction files as [| r rest IH]; intros st st' s s' H Hnd.
  - now inversion H; subst.
  - rewrite process_loop_cons in H.
    destruct (create_github_issue w self r s) as [res s1] eqn:Hstep.
    assert (Hnd1 : NoDup (open_titles s1)).
    { apply create_github_issue_cases in Hstep
        as [-> | [-> | [(-> & _) | (body & _ & Habsent & ->)]]]; try exact Hnd.
      rewrite Hsearch in Habsent. unfold open_titles. simpl. constructor; [| exact Hnd].
      intros Hin. apply existsb_has_title in Hin. congruence. }
    destruct res as [[] | e]; eapply IH; eassumption.
Qed.

(** Outside dry-run mode, when no record was counted as an error, every
    record has an issue of its title open at the end. *)
Lemma process_loop_all_open (files : list FileInfo) :
  dry_run self = false ->
  forall (st st' : Stats) (s s' : State),
  process_loop w self files st s = (Ok st', s') ->
  errors st' = errors st ->
  forall r, In r files -> In (create_issue_title r) (open_titles s').
Proof.
  intros Hdry. induction files as [| r0 rest IH]; intros st st' s s' H Herr r Hin;
    [destruct Hin |].
  rewrite process_loop_cons in H.
  destruct (create_github_issue w self r0 s) as [res s1] eqn:Hstep.
  assert (Hok : res = Ok true).
  { destruct res as [[] | e]; [reflexivity | |];
      apply process_loop_effects in H as (_ & _ & _ & _ & He & _);
      simpl in He; lia. }
  subst res. destruct Hin as [<- | Hin].
  - apply create_github_issue_true_live in Hstep; [| exact Hdry].
    apply process_loop_effects in H as (added & Ho & _). unfold open_titles in *.
    rewrite Ho, map_app. apply in_or_app. now right.
  - eapply IH; try eassumption.
Qed.

(** When every record has an issue of its title open and the listing does
    not fail, the loop creates nothing. *)
Lemma process_loop_nothing_to_do (files : list FileInfo) :
  dry_run self = false -> repo self = true ->
  (forall n, search_fault w n = None) ->
  forall (st : Stats) (s : State),
  (forall r, In r files -> In (create_issue_title r) (open_titles s)) ->
  exists s' : State,
    process_loop w self files st s
      = (Ok (mkStats (List.length files + created st) (skipped st) (errors st)), s') /\
    open_issues s' = open_issues s /\
    next_number s' = next_number s /\
    create_calls s' = create_calls s.
Proof.
  intros Hdry Hrepo Hsearch.
  induction files as [| r rest IH]; intros st s Hopen.
  - exists s. destruct st. simpl. auto.
  - rewrite process_loop_cons, create_github_issue_live by assumption.
    assert (Hr : In (create_issue_title r) (open_titles s)) by (apply Hopen; now left).
    apply in_map_iff in Hr as (issue & Htitle & Hin).
    destruct (find_existing_issue_some w self r s issue Hrepo (Hsearch _) Hin Htitle)
      as (found & ->).
    destruct (IH (count_created st) (searched s)) as (s' & -> & Ho & Hn & Hc).
    { intros r' Hr'. apply Hopen. now right. }
    exists s'. simpl in *. repeat split; try assumption.
    do 2 f_equal. f_equal. lia.
Qed.

(** A tracker that answers every call: each reconciliation says [True]. *)
Lemma create_github_issue_no_fault (r : FileInfo) (s : State) :
  dry_run self = true \/ repo self = true ->
  (forall n, search_fault w n = None) ->
  (forall n, create_fault w n = None) ->
  (exists body, create_issue_body w r = Ok body) ->
  exists s' : State, create_github_issue w self r s = (Ok true, s').
Proof.
  intros Hmode Hsearch Hcreate (body & Hbody).
  destruct (dry_run self) eqn:Hdry.
  - exists s. now apply create_github_issue_dry.
  - destruct Hmode as [| Hrepo]; [discriminate |].
    rewrite create_github_issue_live by assumption.
    destruct (find_existing_issue w self r s) as [found s1] eqn:Hfind.
    apply find_existing_issue_cases in Hfind
      as [(Hno & _) | (_ & -> & shown & fault & Hshown & Hfound)]; [congruence |].
    assert (fault = None) as ->.
    { destruct Hshown as [(_ & _ & ->) | (k & e & Hf & _)]; [reflexivity |].
      rewrite Hsearch in Hf. discriminate. }
    destruct (find (has_title (create_issue_title r)) shown); subst found; [eauto |].
    rewrite Hbody, Hcreate. eauto.
Qed.

End ReconcilerInvariants.

Lemma process_loop_no_repo (w : World) (self : Checker) (files : list FileInfo) :
  dry_run self = false ->
  repo self = false ->
  forall (st : Stats) (s : State),
  process_loop w self files st s
  = (Ok (mkStats (created st) (skipped st) (List.length files + errors st)), s).
Proof.
  intros Hdry Hrepo. induction files as [| r rest IH]; intros st s.
  - destruct st; reflexivity.
  - rewrite process_loop_cons. unfold create_github_issue. rewrite Hdry, Hrepo.
    simpl. rewrite IH. simpl. do 2 f_equal. f_equal. lia.
Qed.

(** X10.  A checker without a repository handle (no token, PyGithub
    missing, or [get_repo] failed) that is not in dry-run mode counts every
    record as an error and asks nothing of the tracker. *)
Theorem no_repository_handle_all_errors (w : World) (self : Checker)
    (files : list FileInfo) (s : State) :
  dry_run self = false ->
  repo self = false ->
  process_outdated_files w self files s = (Ok (mkStats 0 0 (List.length files)), s).
Proof.
  intros Hdry Hrepo. unfold process_outdated_files.
  rewrite process_loop_no_repo by assumption. simpl. now rewrite Nat.add_0_r.
Qed.

Lemma no_repository_handle_all_errors_witness :
  process_outdated_files Examples.aruba_world HostExamples.tokenless_checker
    [Examples.aruba_record; Examples.chile_record] Examples.start
  = (Ok (mkStats 0 0 (List.length [Examples.aruba_record; Examples.chile_record])),
     Examples.start).
Proof.
  apply (no_repository_handle_all_errors Examples.aruba_world
           HostExamples.tokenless_checker); reflexivity.
Defined.

(** X11.  With a tracker that answers every call and an issue body that
    can be rendered, no record is an error: in dry-run mode or with a
    repository handle, every record counts as created. *)
Theorem working_tracker_all_created (w : World) (self : Checker)
    (files : list FileInfo) (s : State) :
  dry_run self = true \/ repo self = true ->
  (forall n, search_fault w n = None) ->
  (forall n, create_fault w n = None) ->
  (forall r, exists body, create_issue_body w r = Ok body) ->
  exists s' : State,
    process_outdated_files w self files s = (Ok (mkStats (List.length files) 0 0), s').
Proof.
  intros Hmode Hsearch Hcreate Hbody. unfold process_outdated_files.
  assert (H : forall st s0, exists s',
             process_loop w self files st s0
             = (Ok (mkStats (List.length files + created st) (skipped st) (errors st)), s')).
  { induction files as [| r rest IH]; intros st s0.
    - exists s0. destruct st; reflexivity.
    - rewrite process_loop_cons.
      destruct (create_github_issue_no_fault w self r s0 Hmode Hsearch Hcreate (Hbody r))
        as (s1 & ->).
      destruct (IH (count_created st) s1) as (s' & ->).
      exists s'. simpl. do 2 f_equal. f_equal. lia. }
  destruct (H (mkStats 0 0 0) s) as (s' & ->).
  exists s'. simpl. now rewrite Nat.add_0_r.
Qed.

Lemma working_tracker_all_created_witness :
  exists s' : State,
    process_outdated_files Examples.aruba_world Examples.checker
      [Examples.aruba_record; Examples.chile_record; Examples.aruba_record] Examples.start
    = (Ok (mkStats
             (List.length [Examples.aruba_record; Examples.chile_record;
                           Examples.aruba_record]) 0 0), s').
Proof.
  apply (working_tracker_all_created Examples.aruba_world Examples.checker).
  - right. reflexivity.
  - reflexivity.
  - reflexivity.
  - intros r. eexists. reflexivity.
Defined.

(** X12.  The reconciliation only adds to the tracker: the issues open
    before stay, in their order, behind the new ones.  Every new issue has
    the title of one of the records and the three labels
    [holiday-updates], [maintenance], [data-update]; there are at most as
    many new issues as records counted as created.  The open issues are
    listed at most once per record, and [create_issue] is called at most
    once per listing. *)
Theorem reconciliation_only_adds_issues (w : World) (self : Checker)
    (files : list FileInfo) (s s' : State) (st : Stats) :
  process_outdated_files w self files s = (Ok st, s') ->
  exists added : list Issue,
    open_issues s' = (added ++ open_issues s)%list /\
    Forall (fun i => issue_labels i = ["holiday-updates"; "maintenance"; "data-update"] /\
                     exists r, In r files /\ issue_title i = create_issue_title r) added /\
    (List.length added <= created st)%nat /\
    next_number s' = next_number s + Z.of_nat (List.length added) /\
    (search_calls s' - search_calls s <= List.length files)%nat /\
    (create_calls s' - create_calls s <= search_calls s' - search_calls s)%nat.
Proof.
  unfold process_outdated_files. intros H.
  apply process_loop_effects in H
    as (added & Ho & Hall & Hc & _ & _ & Hn & Hs & _ & Hd).
  exists added. simpl in Hc. repeat split; try assumption; lia.
Qed.

Lemma reconciliation_only_adds_issues_witness :
  exists added : list Issue,
    open_issues (snd (process_outdated_files Examples.create_down_world Examples.checker
                        [Examples.aruba_record; Examples.chile_record]
                        Examples.start_with_aruba))
      = (added ++ open_issues Examples.start_with_aruba)%list /\
    Forall (fun i => issue_labels i = ["holiday-updates"; "maintenance"; "data-update"] /\
                     exists r, In r [Examples.aruba_record; Examples.chile_record] /\
                               issue_title i = create_issue_title r) added /\
    (List.length added <= created (mkStats 2 0 0))%nat /\
    next_number (snd (process_outdated_files Examples.create_down_world Examples.checker
                        [Examples.aruba_record; Examples.chile_record]
                        Examples.start_with_aruba))
      = next_number Examples.start_with_aruba + Z.of_nat (List.length added) /\
    (search_calls (snd (process_outdated_files Examples.create_down_world Examples.checker
                          [Examples.aruba_record; Examples.chile_record]
                          Examples.start_with_aruba))
     - search_calls Examples.start_with_aruba
     <= List.length [Examples.aruba_record; Examples.chile_record])%nat /\
    (create_calls (snd (process_outdated_files Examples.create_down_world Examples.checker
                          [Examples.aruba_record; Examples.chile_record]
                          Examples.start_with_aruba))
     - create_calls Examples.start_with_aruba
     <= search_calls (snd (process_outdated_files Examples.create_down_world
                             Examples.checker
                             [Examples.aruba_record; Examples.chile_record]
                             Examples.start_with_aruba))
        - search_calls Examples.start_with_aruba)%nat.
Proof.
  apply (reconciliation_only_adds_issues Examples.create_down_world Examples.checker
           [Examples.aruba_record; Examples.chile_record] Examples.start_with_aruba).
  reflexivity.
Defined.

(** X13.  As long as the listing of the open issues does not fail, the
    reconciliation never opens a second issue of a title: if the titles of
    the open issues are pairwise distinct before, they are so after,
    whatever the records (two records of the same name included) and
    whatever fails in the creation. *)
Theorem reconciliation_keeps_titles_distinct (w : World) (self : Checker)
    (files : list FileInfo) (s s' : State) (st : Stats) :
  (forall n, search_fault w n = None) ->
  NoDup (map issue_title (open_issues s)) ->
  process_outdated_files w self files s = (Ok st, s') ->
  NoDup (map issue_title (open_issues s')).
Proof.
  intros Hsearch Hnd H. unfold process_outdated_files in H.
  eapply (process_loop_distinct_titles w self files Hsearch); eassumption.
Qed.

Lemma reconciliation_keeps_titles_distinct_witness :
  NoDup (map issue_title
           (open_issues (snd (process_outdated_files Examples.create_down_world
                                Examples.checker
                                [Examples.chile_record; Examples.zambia_record;
                                 Examples.chile_record; Examples.zambia_record;
                                 Examples.aruba_record]
                                Examples.start_with_aruba)))).
Proof.
  apply (reconciliation_keeps_titles_distinct Examples.create_down_world Examples.checker
           [Examples.chile_record; Examples.zambia_record;
            Examples.chile_record; Examples.zambia_record; Examples.aruba_record]
           Examples.start_with_aruba _ (mkStats 4 0 1)).
  - reflexivity.
  - simpl. repeat constructor. simpl. tauto.
  - reflexivity.
Defined.

(** X14.  Reconciling twice is reconciling once: outside dry-run mode, with
    a repository handle and a listing that does not fail, when a first
    reconciliation counted no error, a second reconciliation of the same
    records finds an open issue for every record; it counts all of them as
    created, opens no issue and does not call [create_issue]. *)
Theorem second_reconciliation_creates_nothing (w : World) (self : Checker)
    (files : list FileInfo) (s s1 : State) (st : Stats) :
  dry_run self = false ->
  repo self = true ->
  (forall n, search_fault w n = None) ->
  process_outdated_files w self files s = (Ok st, s1) ->
  errors st = 0%nat ->
  exists s2 : State,
    process_outdated_files w self files s1 = (Ok (mkStats (List.length files) 0 0), s2) /\
    open_issues s2 = open_issues s1 /\
    create_calls s2 = create_calls s1.
Proof.
  intros Hdry Hrepo Hsearch Hfirst Herr. unfold process_outdated_files in *.
  pose proof (process_loop_all_open w self files Hdry _ _ _ _ Hfirst Herr) as Hopen.
  destruct (process_loop_nothing_to_do w self files Hdry Hrepo Hsearch (mkStats 0 0 0) s1 Hopen)
    as (s2 & H & Ho & _ & Hc).
  exists s2. simpl in H. rewrite Nat.add_0_r in H. auto.
Qed.

Lemma second_reconciliation_creates_nothing_witness :
  exists s2 : State,
    process_outdated_files Examples.aruba_world Examples.checker
      [Examples.aruba_record; Examples.chile_record]
      (snd (process_outdated_files Examples.aruba_world Examples.checker
              [Examples.aruba_record; Examples.chile_record] Examples.start))
    = (Ok (mkStats (List.length [Examples.aruba_record; Examples.chile_record]) 0 0), s2) /\
    open_issues s2
    = open_issues (snd (process_outdated_files Examples.aruba_world Examples.checker
                          [Examples.aruba_record; Examples.chile_record] Examples.start)) /\
    create_calls s2
    = create_calls (snd (process_outdated_files Examples.aruba_world Examples.checker
                           [Examples.aruba_record; Examples.chile_record] Examples.start)).
Proof.
  apply (second_reconciliation_creates_nothing Examples.aruba_world Examples.checker
           [Examples.aruba_record; Examples.chile_record] Examples.start _ (mkStats 2 0 0)).
  - reflexivity.
  - reflexivity.
  - reflexivity.
  - reflexivity.
  - reflexivity.
Defined.

Lemma find_existing_issue_raises (w : World) (self : Checker) (r : FileInfo)
    (s s' : State) (e : exn) :
  find_existing_issue w self r s = (Raise e, s') -> e <> GithubException.
Proof.
  intros H.
  apply find_existing_issue_cases in H
    as [(_ & Hres & _) | (_ & _ & shown & fault & _ & Hfound)]; [discriminate |].
  destruct (find (has_title (create_issue_title r)) shown); [discriminate |].
  destruct fault as [[] |]; inversion Hfound; discriminate.
Qed.

(** X15.  [find_existing_issue] answers with an issue only if that issue is
    open and has exactly the title of the record, and it is the first such
    issue of the listing; neither it nor [create_github_issue] ever raises
    [GithubException]: both catch it. *)
Theorem existing_issue_is_open_with_that_title (w : World) (self : Checker)
    (r : FileInfo) (s s' : State) :
  (forall issue : Issue,
      find_existing_issue w self r s = (Ok (Some issue), s') ->
      In issue (open_issues s) /\
      issue_title issue = create_issue_title r /\
      exists before after : list Issue,
        open_issues s = (before ++ issue :: after)%list /\
        ~ In (create_issue_title r) (map issue_title before)) /\
  find_existing_issue w self r s <> (Raise GithubException, s') /\
  create_github_issue w self r s <> (Raise GithubException, s').
Proof.
  split; [| split].
  - intros issue H.
    apply find_existing_issue_cases in H
      as [(_ & Hres & _) | (_ & _ & shown & fault & Hshown & Hfound)]; [discriminate |].
    assert (Hfind : find (has_title (create_issue_title r)) shown = Some issue).
    { destruct (find (has_title (create_issue_title r)) shown); [congruence |].
      destruct fault as [[] |]; discriminate. }
    assert (Hprefix : exists rest, open_issues s = (shown ++ rest)%list).
    { destruct Hshown as [(_ & -> & _) | (k & e & _ & -> & _)].
      - exists []. now rewrite app_nil_r.
      - exists (skipn k (open_issues s)). now rewrite firstn_skipn. }
    destruct Hprefix as (rest & Hrest).
    clear Hshown Hfound. revert Hfind. revert Hrest.
    generalize (open_issues s). induction shown as [| head tail IH]; intros l -> Hfind;
      [discriminate |].
    simpl in Hfind. destruct (has_title (create_issue_title r) head) eqn:Hhead.
    + inversion Hfind; subst head. split; [now left |].
      split; [now apply String.eqb_eq |].
      exists [], (tail ++ rest)%list. split; [reflexivity | intros []].
    + destruct (IH (tail ++ rest)%list eq_refl Hfind)
        as (Hin & Htitle & before & after & Hsplit & Hnot).
      split; [now right |]. split; [exact Htitle |].
      exists (head :: before), after. split; [simpl; now rewrite Hsplit |].
      simpl. intros [Heq | Hb]; [| now apply Hnot].
      unfold has_title in Hhead. rewrite Heq, String.eqb_refl in Hhead. discriminate.
  - intros H. now apply find_existing_issue_raises in H.
  - destruct (dry_run self) eqn:Hdry;
      [rewrite create_github_issue_dry by assumption; discriminate |].
    destruct (repo self) eqn:Hrepo.
    + rewrite create_github_issue_live by assumption.
      destruct (find_existing_issue w self r s) as [[[found |] | e] s1] eqn:Hfind.
      * discriminate.
      * destruct (create_issue_body w r) as [body | []]; try discriminate.
        destruct (create_fault w (create_calls s1)) as [[] |]; discriminate.
      * apply find_existing_issue_raises in Hfind. congruence.
    + unfold create_github_issue. rewrite Hdry, Hrepo. discriminate.
Qed.

Lemma existing_issue_is_open_with_that_title_witness :
  In Examples.aruba_issue (open_issues Examples.start_with_aruba) /\
  issue_title Examples.aruba_issue = create_issue_title Examples.aruba_record /\
  exists before after : list Issue,
    open_issues Examples.start_with_aruba = (before ++ Examples.aruba_issue :: after)%list /\
    ~ In (create_issue_title Examples.aruba_record) (map issue_title before).
Proof.
  apply (proj1 (existing_issue_is_open_with_that_title Examples.aruba_world
                  Examples.checker Examples.aruba_record Examples.start_with_aruba
                  (searched Examples.start_with_aruba))).
  reflexivity.
Defined.

(** Neither replacing the underscores nor changing the case of a letter
    gives an underscore. *)
Lemma shown_char_is_no_underscore (c : ascii) (previous_is_cased : bool) :
  Ascii.eqb
    (if previous_is_cased
     then PyStr.to_lower (if Ascii.eqb c "_" then " "%char else c)
     else PyStr.to_upper (if Ascii.eqb c "_" then " "%char else c))
    "_" = false.
Proof.
  destruct c as [[] [] [] [] [] [] [] []], previous_is_cased; reflexivity.
Qed.

Lemma rfind_underscore_shown (s : string) :
  forall (previous_is_cased : bool) (i last : Z),
  PyStr.rfind_from "_" (PyStr.title_from previous_is_cased (PyStr.replace "_" " " s)) i last
  = last.
Proof.
  induction s as [| c s IH]; intros b i last; [reflexivity |].
  cbn [PyStr.replace PyStr.title_from PyStr.rfind_from].
  now rewrite shown_char_is_no_underscore, IH.
Qed.

Lemma length_shown (s : string) :
  forall previous_is_cased : bool,
  String.length (PyStr.title_from previous_is_cased (PyStr.replace "_" " " s))
  = String.length s.
Proof.
  induction s as [| c s IH]; intros b; simpl; [reflexivity | now rewrite IH].
Qed.

(** X16.  For a file [<stem>.py] with a non-empty stem of ASCII characters,
    whatever dots the stem contains, the glob pattern accepts the name and
    the name shown in the issue is the stem, underscores replaced by
    spaces, title-cased (the letters that begin a word are capitals, all
    other letters are small, everything else is kept); it has the length
    of the stem.  The name shown for a file whose stem is of ASCII
    characters contains no underscore. *)
Theorem shown_name_of_python_file (w : World) (directory stem : string) :
  stem <> ""%string ->
  PyStr.is_ascii stem = true ->
  PyStr.endswith ".py" (stem ++ ".py") = true /\
  PyStr.stem (stem ++ ".py") = stem /\
  shown_name_of stem (extract_name_from_path w (mkFilePath directory (stem ++ ".py"))) /\
  String.length (extract_name_from_path w (mkFilePath directory (stem ++ ".py")))
    = String.length stem /\
  (forall f : FilePath,
      PyStr.is_ascii (PyStr.stem (fp_name f)) = true ->
      PyStr.rfind "_" (extract_name_from_path w f) = -1).
Proof.
  intros Hstem Hascii.
  destruct (shown_name_of_stem w directory stem Hstem Hascii) as [Hname Hshown].
  split; [| split; [now apply stem_of_python_file | split; [exact Hshown | split]]].
  - unfold PyStr.endswith. rewrite length_append. simpl String.length.
    replace (String.length stem + 3 - 3)%nat with (String.length stem) by lia.
    replace (3 <=? String.length stem + 3)%nat with true
      by (symmetry; apply Nat.leb_le; lia).
    change 3%nat with (String.length ".py").
    rewrite substring_suffix. reflexivity.
  - rewrite Hname. apply length_shown.
  - intros f Hf. unfold extract_name_from_path, py_title.
    rewrite is_ascii_replace, Hf. unfold PyStr.rfind, PyStr.title.
    apply rfind_underscore_shown.
Qed.

Lemma shown_name_of_python_file_witness :
  PyStr.endswith ".py" ("st._kitts_and_nevis" ++ ".py") = true /\
  PyStr.stem ("st._kitts_and_nevis" ++ ".py") = "st._kitts_and_nevis"%string /\
  shown_name_of "st._kitts_and_nevis"
    (extract_name_from_path Examples.aruba_world
       (mkFilePath "holidays/countries" ("st._kitts_and_nevis" ++ ".py"))) /\
  String.length
    (extract_name_from_path Examples.aruba_world
       (mkFilePath "holidays/countries" ("st._kitts_and_nevis" ++ ".py")))
    = String.length "st._kitts_and_nevis" /\
  (forall f : FilePath,
      PyStr.is_ascii (PyStr.stem (fp_name f)) = true ->
      PyStr.rfind "_" (extract_name_from_path Examples.aruba_world f) = -1).
Proof.
  apply (shown_name_of_python_file Examples.aruba_world "holidays/countries"
           "st._kitts_and_nevis").
  - discriminate.
  - reflexivity.
Defined.

(* ===================================================================== *)
(** ** The entry point *)
(* ===================================================================== *)

Section Main.

Variable h : Host.
Variable w : World.

(** The outputs can be written when [GITHUB_OUTPUT] is unset or empty
    (nothing is written then) or when the file takes the lines. *)
Lemma write_outputs_ok (result : RunResult) :
  (truthy (env_github_output h) = true -> output_fault h = None) ->
  write_outputs h result =
  Ok (if truthy (env_github_output h)
      then [("outdated_files=" ++ py_str (List.length (outdated_files result)))%string;
            ("outdated_files_count=" ++ py_str (List.length (outdated_files result)))%string;
            ("issues_created=" ++ py_str (created (stats result)))%string]
      else []).
Proof.
  intros Hout. unfold write_outputs, write_github_output.
  destruct (truthy (env_github_output h)); [| reflexivity].
  now rewrite Hout.
Qed.

Lemma write_outputs_raise (result : RunResult) :
  truthy (env_github_output h) = true -> output_fault h <> None ->
  exists e, write_outputs h result = Raise e.
Proof.
  intros Hset Hfault. unfold write_outputs, write_github_output. rewrite Hset.
  destruct (output_fault h) as [e |]; [eauto | congruence].
Qed.

(** [main] once the configuration was read and the repository path found:
    the exit status and the outputs follow from the result of [run]. *)
Lemma main_after_setup (s : State) (threshold : Z) :
  int_of_text (getenv (env_threshold_days h) (IntLiteral 180)) = Ok threshold ->
  repo_path_exists h = true ->
  repo_path_listing h = None ->
  main h w s =
  match run w (main_checker h threshold) s with
  | (Ok result, s') =>
      match write_outputs h result with
      | Ok file =>
          if (0 <? errors (stats result))%nat
          then (mkProcess (Exit 1) file, s')
          else (mkProcess (Exit 0) file, s')
      | Raise _ => (mkProcess (Exit 1) [], s')
      end
  | (Raise _, s') => (mkProcess (Exit 1) [], s')
  end.
Proof.
  intros Hint Hexists Hlisting. unfold main. now rewrite Hint, Hexists, Hlisting.
Qed.

(** The exit status is 0 or 1. *)
Lemma main_exit_status_0_or_1 (s : State) :
  exit_status (ending (fst (main h w s))) = 0 \/
  exit_status (ending (fst (main h w s))) = 1.
Proof.
  unfold main.
  destruct (int_of_text _); [| now right].
  destruct (repo_path_exists h); [| now right].
  destruct (repo_path_listing h); [now right |].
  destruct (run w _ s) as [[result | e] s']; [| now right].
  destruct (write_outputs h result); [| now right].
  destruct (0 <? errors (stats result))%nat; auto.
Qed.

End Main.

(** X17.  The process ends with status 0 exactly when the threshold could
    be read, the repository path exists and can be listed, [run] returned
    a result whose error counter is 0, and the outputs could be written;
    in every other case the status is 1. *)
Theorem main_exit_status (h : Host) (w : World) (s : State) :
  (exit_status (ending (fst (main h w s))) = 0 <->
   exists (threshold : Z) (result : RunResult) (s' : State),
     int_of_text (getenv (env_threshold_days h) (IntLiteral 180)) = Ok threshold /\
     repo_path_exists h = true /\
     repo_path_listing h = None /\
     run w (main_checker h threshold) s = (Ok result, s') /\
     errors (stats result) = 0%nat /\
     (truthy (env_github_output h) = true -> output_fault h = None)) /\
  (exit_status (ending (fst (main h w s))) = 0 \/
   exit_status (ending (fst (main h w s))) = 1).
Proof.
  split; [| apply main_exit_status_0_or_1]. split.
  - unfold main.
    destruct (int_of_text (getenv (env_threshold_days h) (IntLiteral 180)))
      as [threshold | e] eqn:Hint; [| discriminate].
    destruct (repo_path_exists h) eqn:Hexists; [| discriminate].
    destruct (repo_path_listing h) as [e |] eqn:Hlisting; [discriminate |].
    destruct (run w (main_checker h threshold) s) as [[result | e] s'] eqn:Hrun;
      [| discriminate].
    destruct (write_outputs h result) as [file | e] eqn:Hwrite; [| discriminate].
    destruct (0 <? errors (stats result))%nat eqn:Herr; [discriminate |].
    intros _. exists threshold, result, s'.
    repeat split; try reflexivity; try assumption.
    + apply Nat.ltb_ge in Herr. lia.
    + intros Hset. destruct (output_fault h) as [e |] eqn:Hfault; [| reflexivity].
      destruct (write_outputs_raise h result Hset) as (e' & He'); [congruence |].
      congruence.
  - intros (threshold & result & s' & Hint & Hexists & Hlisting & Hrun & Herr & Hout).
    rewrite (main_after_setup h w s threshold Hint Hexists Hlisting), Hrun.
    rewrite write_outputs_ok by assumption. now rewrite Herr.
Qed.

Lemma main_exit_status_witness :
  exit_status (ending (fst (main HostExamples.ci_host Examples.aruba_world Examples.start)))
  = 0.
Proof.
  apply (proj1 (main_exit_status HostExamples.ci_host Examples.aruba_world Examples.start)).
  exists 180, (mkRunResult [Examples.aruba_record] (mkStats 1 0 0)
                 (Examples.today * 1000000)),
         (snd (run Examples.aruba_world Examples.checker Examples.start)).
  repeat split.
Defined.

(** X18.  Whenever [run] returns and [GITHUB_OUTPUT] names a writable file,
    three lines are written, also when records failed and the status is 1:
    the number of outdated files, twice, and the counter of created issues,
    which never exceeds that number.  [main] leaves the state as [run]
    left it. *)
Theorem main_writes_the_outputs (h : Host) (w : World) (s s' : State)
    (threshold : Z) (result : RunResult) :
  int_of_text (getenv (env_threshold_days h) (IntLiteral 180)) = Ok threshold ->
  repo_path_exists h = true ->
  repo_path_listing h = None ->
  truthy (env_github_output h) = true ->
  output_fault h = None ->
  run w (main_checker h threshold) s = (Ok result, s') ->
  main h w s =
    (mkProcess
       (Exit (if (0 <? errors (stats result))%nat then 1 else 0))
       [("outdated_files=" ++ py_str (List.length (outdated_files result)))%string;
        ("outdated_files_count=" ++ py_str (List.length (outdated_files result)))%string;
        ("issues_created=" ++ py_str (created (stats result)))%string],
     s') /\
  (created (stats result) <= List.length (outdated_files result))%nat.
Proof.
  intros Hint Hexists Hlisting Hset Hfault Hrun. split.
  - rewrite (main_after_setup h w s threshold Hint Hexists Hlisting), Hrun.
    rewrite write_outputs_ok by (intros _; exact Hfault). rewrite Hset.
    now destruct (0 <? errors (stats result))%nat.
  - rewrite run_unfold in Hrun.
    destruct (check_freshness w (main_checker h threshold) s) as [[recs | e] s1];
      [| discriminate].
    unfold process_outdated_files in Hrun.
    destruct (process_loop_total w (main_checker h threshold) recs (mkStats 0 0 0) s1)
      as (st & s2 & Hloop & _ & Hsum).
    rewrite Hloop in Hrun. inversion Hrun; subst. simpl in *. lia.
Qed.

Lemma main_writes_the_outputs_witness :
  main HostExamples.ci_host Examples.create_down_world Examples.start =
    (mkProcess (Exit 1)
       ["outdated_files=2"%string; "outdated_files_count=2"%string;
        "issues_created=1"%string],
     snd (run Examples.create_down_world Examples.checker Examples.start)) /\
  (1 <= 2)%nat.
Proof.
  apply (main_writes_the_outputs HostExamples.ci_host Examples.create_down_world
           Examples.start _ 180
           (mkRunResult [Examples.aruba_record; Examples.chile_record] (mkStats 1 0 1)
              (Examples.today * 1000000))); reflexivity.
Defined.

(** X19.  [main] gives up before any work when the threshold is no integer
    (the [ValueError] is not caught), when the repository path does not
    exist, or when it cannot be listed: the status is 1, no output is
    written and neither git, nor the clock, nor the tracker was asked. *)
Theorem main_gives_up_early (h : Host) (w : World) (s : State) :
  env_threshold_days h = Some NotAnInt \/
  repo_path_exists h = false \/
  repo_path_listing h <> None ->
  exit_status (ending (fst (main h w s))) = 1 /\
  github_output (fst (main h w s)) = [] /\
  snd (main h w s) = s /\
  (env_threshold_days h = Some NotAnInt ->
   ending (fst (main h w s)) = Uncaught ValueError).
Proof.
  intros Hearly.
  assert (Hlate : forall threshold : Z,
             repo_path_exists h = false \/ repo_path_listing h <> None ->
             let p := (if repo_path_exists h
                       then match repo_path_listing h with
                            | Some e => (mkProcess (Uncaught e) [], s)
                            | None =>
                                match run w (main_checker h threshold) s with
                                | (Ok result, s') =>
                                    match write_outputs h result with
                                    | Ok file =>
                                        if (0 <? errors (stats result))%nat
                                        then (mkProcess (Exit 1) file, s')
                                        else (mkProcess (Exit 0) file, s')
                                    | Raise _ => (mkProcess (Exit 1) [], s')
                                    end
                                | (Raise _, s') => (mkProcess (Exit 1) [], s')
                                end
                            end
                       else (mkProcess (Exit 1) [], s)) in
             exit_status (ending (fst p)) = 1 /\ github_output (fst p) = [] /\ snd p = s).
  { intros threshold Hwhy. destruct (repo_path_exists h); [| now repeat split].
    destruct (repo_path_listing h); [now repeat split |].
    destruct Hwhy as [Hwhy | Hwhy]; [discriminate | congruence]. }
  unfold main.
  destruct (env_threshold_days h) as [[threshold |] |] eqn:Hthr; simpl.
  - destruct Hearly as [Hbad | Hwhy]; [discriminate |].
    destruct (Hlate threshold Hwhy) as (H1 & H2 & H3). now repeat split.
  - now repeat split.
  - destruct Hearly as [Hbad | Hwhy]; [discriminate |].
    destruct (Hlate 180 Hwhy) as (H1 & H2 & H3). now repeat split.
Qed.

Lemma main_gives_up_early_witness :
  exit_status (ending (fst (main HostExamples.bad_threshold_host Examples.aruba_world
                              Examples.start))) = 1 /\
  github_output (fst (main HostExamples.bad_threshold_host Examples.aruba_world
                        Examples.start)) = [] /\
  snd (main HostExamples.bad_threshold_host Examples.aruba_world Examples.start)
    = Examples.start /\
  (env_threshold_days HostExamples.bad_threshold_host = Some NotAnInt ->
   ending (fst (main HostExamples.bad_threshold_host Examples.aruba_world Examples.start))
   = Uncaught ValueError).
Proof.
  apply (main_gives_up_early HostExamples.bad_threshold_host Examples.aruba_world
           Examples.start).
  left. reflexivity.
Defined.

(** X20.  Suppose the threshold can be read, the repository path exists
    and can be listed, [GITHUB_OUTPUT] names a file that can be written,
    and the scan returns.  Without a repository handle (no token in
    [INPUT_GITHUB_TOKEN] or [GITHUB_TOKEN], PyGithub not installed, or
    [get_repo] failing in [__init__]) and outside dry-run mode, the action
    reports 0 created issues and fails as soon as one file is outdated:
    the status is 0 only if the scan found nothing.  No issue is listed or
    created: [get_issues] and [create_issue] are not called and the open
    issues are those from before.  (The one request the action can have
    sent to the tracker is the [get_repo] of [__init__].) *)
Theorem main_without_repository_handle (h : Host) (w : World) (s s1 : State)
    (threshold : Z) (recs : list FileInfo) :
  int_of_text (getenv (env_threshold_days h) (IntLiteral 180)) = Ok threshold ->
  repo_path_exists h = true ->
  repo_path_listing h = None ->
  truthy (py_or (env_input_github_token h) (env_github_token h)) = false \/
  pygithub_available h = false \/
  get_repo_fault h <> None ->
  py_lower (getenv (env_dry_run h) "false") <> "true"%string ->
  truthy (env_github_output h) = true ->
  output_fault h = None ->
  check_freshness w (main_checker h threshold) s = (Ok recs, s1) ->
  main h w s =
    (mkProcess
       (Exit (match recs with [] => 0 | _ :: _ => 1 end))
       [("outdated_files=" ++ py_str (List.length recs))%string;
        ("outdated_files_count=" ++ py_str (List.length recs))%string;
        "issues_created=0"%string],
     tick s1) /\
  open_issues (tick s1) = open_issues s /\
  search_calls (tick s1) = search_calls s /\
  create_calls (tick s1) = create_calls s.
Proof.
  intros Hint Hexists Hlisting Hhandle Hdry Hset Hfault Hscan.
  assert (Hd : dry_run (main_checker h threshold) = false).
  { simpl. now apply String.eqb_neq. }
  assert (Hr : repo (main_checker h threshold) = false).
  { simpl. destruct Hhandle as [-> | [-> | Hget]].
    - reflexivity.
    - now rewrite andb_false_r.
    - destruct (get_repo_fault h); [| congruence].
      now destruct (_ && _). }
  split.
  - rewrite (main_after_setup h w s threshold Hint Hexists Hlisting), run_unfold, Hscan.
    unfold process_outdated_files. rewrite process_loop_no_repo by assumption.
    rewrite write_outputs_ok by (intros _; exact Hfault). rewrite Hset. simpl.
    rewrite Nat.add_0_r. now destruct recs.
  - apply check_freshness_state in Hscan as (n & ->). now repeat split.
Qed.

Lemma main_without_repository_handle_witness :
  main HostExamples.tokenless_host Examples.listed_za Examples.start =
    (mkProcess
       (Exit (match [Examples.chile_record; Examples.aruba_record] with
              | [] => 0 | _ :: _ => 1 end))
       [("outdated_files="
           ++ py_str (List.length [Examples.chile_record; Examples.aruba_record]))%string;
        ("outdated_files_count="
           ++ py_str (List.length [Examples.chile_record; Examples.aruba_record]))%string;
        "issues_created=0"%string],
     tick (ticks 3 Examples.start)) /\
  open_issues (tick (ticks 3 Examples.start)) = open_issues Examples.start /\
  search_calls (tick (ticks 3 Examples.start)) = search_calls Examples.start /\
  create_calls (tick (ticks 3 Examples.start)) = create_calls Examples.start.
Proof.
  apply (main_without_repository_handle HostExamples.tokenless_host Examples.listed_za
           Examples.start (ticks 3 Examples.start) 180).
  - reflexivity.
  - reflexivity.
  - reflexivity.
  - left. reflexivity.
  - simpl. discriminate.
  - reflexivity.
  - reflexivity.
  - reflexivity.
Defined.

(** X21.  Suppose the threshold can be read, the repository path exists
    and can be listed, [GITHUB_OUTPUT] names a file that can be written,
    and the scan returns.  With [INPUT_DRY_RUN] equal to [true] in any mix
    of upper and lower case, the action succeeds: the status is 0, and the
    output [issues_created] equals the number of outdated files although
    no issue is listed or created, token or not: [get_issues] and
    [create_issue] are not called and the open issues are those from
    before.  (The one request the action can have sent to the tracker is
    the [get_repo] of [__init__].) *)
Theorem main_in_dry_run (h : Host) (w : World) (s s1 : State)
    (threshold : Z) (recs : list FileInfo) :
  int_of_text (getenv (env_threshold_days h) (IntLiteral 180)) = Ok threshold ->
  repo_path_exists h = true ->
  repo_path_listing h = None ->
  py_lower (getenv (env_dry_run h) "false") = "true"%string ->
  truthy (env_github_output h) = true ->
  output_fault h = None ->
  check_freshness w (main_checker h threshold) s = (Ok recs, s1) ->
  main h w s =
    (mkProcess (Exit 0)
       [("outdated_files=" ++ py_str (List.length recs))%string;
        ("outdated_files_count=" ++ py_str (List.length recs))%string;
        ("issues_created=" ++ py_str (List.length recs))%string],
     tick s1) /\
  open_issues (tick s1) = open_issues s /\
  search_calls (tick s1) = search_calls s /\
  create_calls (tick s1) = create_calls s.
Proof.
  intros Hint Hexists Hlisting Hdry Hset Hfault Hscan.
  assert (Hd : dry_run (main_checker h threshold) = true).
  { simpl. now apply String.eqb_eq. }
  split.
  - rewrite (main_after_setup h w s threshold Hint Hexists Hlisting), run_unfold, Hscan.
    unfold process_outdated_files. rewrite process_loop_dry by assumption.
    rewrite write_outputs_ok by (intros _; exact Hfault). rewrite Hset. simpl.
    now rewrite Nat.add_0_r.
  - apply check_freshness_state in Hscan as (n & ->). now repeat split.
Qed.

Lemma main_in_dry_run_witness :
  main HostExamples.dry_host Examples.listed_za Examples.start_with_aruba =
    (mkProcess (Exit 0)
       [("outdated_files="
           ++ py_str (List.length [Examples.chile_record; Examples.aruba_record]))%string;
        ("outdated_files_count="
           ++ py_str (List.length [Examples.chile_record; Examples.aruba_record]))%string;
        ("issues_created="
           ++ py_str (List.length [Examples.chile_record; Examples.aruba_record]))%string],
     tick (ticks 3 Examples.start_with_aruba)) /\
  open_issues (tick (ticks 3 Examples.start_with_aruba))
    = open_issues Examples.start_with_aruba /\
  search_calls (tick (ticks 3 Examples.start_with_aruba))
    = search_calls Examples.start_with_aruba /\
  create_calls (tick (ticks 3 Examples.start_with_aruba))
    = create_calls Examples.start_with_aruba.
Proof.
  apply (main_in_dry_run HostExamples.dry_host Examples.listed_za
           Examples.start_with_aruba (ticks 3 Examples.start_with_aruba) 180);
    reflexivity.
Defined.

(** X22.  The issue body never stops a batch.  When the template file is
    missing, the body is the one-line fallback with the path and the
    formatted date.  When the body cannot be rendered at all (the template
    cannot be read, or [str.format] raises), the record counts as an error,
    [create_issue] is not called for it, and the loop goes on with the
    remaining records. *)
Theorem unrenderable_body_is_an_error (w : World) (self : Checker) :
  dry_run self = false ->
  repo self = true ->
  (template w = TemplateNotFound ->
   forall r : FileInfo,
     create_issue_body w r
     = Ok ("File " ++ fi_path r ++ " needs updating (last modified: "
           ++ strftime_date w (fi_last_modified r) ++ ")")%string) /\
  (template w = TemplateUnreadable ->
   forall r : FileInfo, create_issue_body w r = Raise OSError) /\
  (forall (r : FileInfo) (rest : list FileInfo) (st : Stats) (s s1 : State) (e : exn),
      find_existing_issue w self r s = (Ok None, s1) ->
      create_issue_body w r = Raise e ->
      process_loop w self (r :: rest) st s
        = process_loop w self rest (count_error st) s1 /\
      create_calls s1 = create_calls s /\
      open_issues s1 = open_issues s).
Proof.
  intros Hdry Hrepo. split; [| split].
  - intros Ht r. unfold create_issue_body. now rewrite Ht.
  - intros Ht r. unfold create_issue_body. now rewrite Ht.
  - intros r rest st s s1 e Hfind Hbody. split.
    + rewrite process_loop_cons, create_github_issue_live by assumption.
      rewrite Hfind, Hbody. now destruct e.
    + apply find_existing_issue_state in Hfind as [-> | ->]; now split.
Qed.

Lemma unrenderable_body_is_an_error_witness :
  create_issue_body Examples.aruba_world Examples.aruba_record
  = Ok ("File " ++ fi_path Examples.aruba_record ++ " needs updating (last modified: "
        ++ strftime_date Examples.aruba_world (fi_last_modified Examples.aruba_record)
        ++ ")")%string.
Proof.
  apply (proj1 (unrenderable_body_is_an_error Examples.aruba_world Examples.checker
                  eq_refl eq_refl) eq_refl Examples.aruba_record).
Defined.
